(** * anafasutil: the line-stream transformer of [app.py]

    A shallow embedding of [process_text_file] and of its helpers
    ([rtrim], [is_blank], [format_float_custom]), together with the Python
    built-ins they call, and the properties of the transformer.

    Conventions of the embedding.
    - A Python [str] is a [list ascii]; a character is a code point below
      256, and on that range the tables below ([isspace_char],
      [is_linebreak], [is_digit]) are Python's.
    - A Python [int] is a [Z]; [set[int]] is a [gset Z].
    - A Python [float] is an IEEE binary64, [spec_float] of the standard
      library with precision 53 and [emax] 1024.
    - An exception is a value: a computation that can raise returns
      [result A]; [try ... except ValueError] is [try_except_ValueError]. *)

From Stdlib Require Import ZArith NArith Ascii String List Lia.
From Stdlib Require Import SpecFloat Decimal DecimalString DecimalPos.
From stdpp Require Import base list gmap.

Local Open Scope Z_scope.
Local Open Scope list_scope.

(** * The program *)

(** ** Strings *)

Abbreviation str := (list ascii).

(** String literals of the source: [lit "DCIR"] is the [str] of the
    literal. *)
Definition lit (x : string) : str := list_ascii_of_string x.
Arguments lit x%_string.

Definition LF : ascii := "010"%char.
Definition CR : ascii := "013"%char.

Definition code (c : ascii) : N := N_of_ascii c.

Definition char_eqb (a b : ascii) : bool := N.eqb (code a) (code b).

(** [str.isspace] on one character: the Unicode whitespace below 256. *)
Definition isspace_char (c : ascii) : bool :=
  let n := code c in
  ((9 <=? n) && (n <=? 13) || (28 <=? n) && (n <=? 32)
   || (n =? 133) || (n =? 160))%N.

(** The line boundaries of [str.splitlines] below 256:
    LF, VT, FF, CR, FS, GS, RS and NEL. *)
Definition is_linebreak (c : ascii) : bool :=
  let n := code c in
  ((10 <=? n) && (n <=? 13) || (28 <=? n) && (n <=? 30) || (n =? 133))%N.

(** The whitespace that [int] and [float] skip at both ends: the C-locale
    whitespace, and the non-ASCII whitespace, which both first map to a
    space. The separators FS, GS, RS and US are not skipped. *)
Definition is_num_space (c : ascii) : bool :=
  let n := code c in
  ((9 <=? n) && (n <=? 13) || (n =? 32) || (n =? 133) || (n =? 160))%N.

Definition is_digit (c : ascii) : bool :=
  let n := code c in ((48 <=? n) && (n <=? 57))%N.

Definition digit_val (c : ascii) : Z := Z.of_N (code c) - 48.

(** [s.startswith(p)] *)
Fixpoint startswith (p s : str) : bool :=
  match p, s with
  | [], _ => true
  | a :: p', b :: s' => char_eqb a b && startswith p' s'
  | _ :: _, [] => false
  end.

(** [s[a:b]] for constant bounds [0 <= a <= b]. *)
Definition slice (a b : nat) (s : str) : str := take (b - a) (drop a s).

(** [s.isspace()]: at least one character, and all of them whitespace. *)
Definition isspace (s : str) : bool :=
  match s with
  | [] => false
  | _ => forallb isspace_char s
  end.

Fixpoint lstrip_by (f : ascii -> bool) (s : str) : str :=
  match s with
  | c :: s' => if f c then lstrip_by f s' else s
  | [] => []
  end.

Definition rstrip_by (f : ascii -> bool) (s : str) : str :=
  rev (lstrip_by f (rev s)).

(** [s.strip()] *)
Definition strip (s : str) : str :=
  rstrip_by isspace_char (lstrip_by isspace_char s).

(** [s.rstrip(' ')] *)
Definition rstrip_space (s : str) : str :=
  rstrip_by (char_eqb " "%char) s.

(** [sep.join(parts)] *)
Fixpoint join (sep : str) (parts : list str) : str :=
  match parts with
  | [] => []
  | [p] => p
  | p :: ps => p ++ sep ++ join sep ps
  end.

(** [s.splitlines()]: [cur] holds the current line, reversed. A CR
    followed by LF is one boundary; no empty last line is produced. *)
Fixpoint splitlines_from (cur : str) (s : str) : list str :=
  match s with
  | [] => match cur with [] => [] | _ => [rev cur] end
  | c :: s' =>
      if is_linebreak c then
        match s' with
        | d :: s'' =>
            if char_eqb c CR && char_eqb d LF
            then rev cur :: splitlines_from [] s''
            else rev cur :: splitlines_from [] s'
        | [] => [rev cur]
        end
      else splitlines_from (c :: cur) s'
  end.

Definition splitlines (s : str) : list str := splitlines_from [] s.

(** ** Exceptions *)

Inductive exn := ValueError | IndexError.

Inductive result (A : Type) :=
  | Ok (a : A)
  | Raise (e : exn).
Arguments Ok {A} a.
Arguments Raise {A} e.

Definition bind {A B} (m : result A) (k : A -> result B) : result B :=
  match m with
  | Ok a => k a
  | Raise e => Raise e
  end.

Notation "x <- m ;; k" := (bind m (fun x => k))
  (at level 100, m at next level, right associativity).

(** [try: x = m  except ValueError: pass], where [x] holds [dflt] before:
    only [ValueError] is caught. *)
Definition try_except_ValueError {A} (m : result A) (dflt : A) : result A :=
  match m with
  | Raise ValueError => Ok dflt
  | _ => m
  end.

(** [l[i]] and [l[i] = x], which raise [IndexError] out of range. *)
Definition getitem {A} (l : list A) (i : nat) : result A :=
  match l !! i with
  | Some x => Ok x
  | None => Raise IndexError
  end.

Definition setitem {A} (l : list A) (i : nat) (x : A) : result (list A) :=
  if (i <? length l)%nat then Ok (<[i:=x]> l) else Raise IndexError.

Definition str_eqb (a b : str) : bool :=
  (length a =? length b)%nat && startswith a b.

(** [l.index(x)]: the position of the first element equal to [x];
    [ValueError] when there is none. *)
Fixpoint index (l : list str) (x : str) : result nat :=
  match l with
  | [] => Raise ValueError
  | y :: l' => if str_eqb y x then Ok 0%nat
               else i <- index l' x ;; Ok (S i)
  end.

(** ** Numbers: [int(s)], [float(s)], [/ 50.0] and [f"{value:.6f}"] *)

Definition take_sign (s : str) : bool * str :=
  match s with
  | c :: s' =>
      if char_eqb c "-"%char then (true, s')
      else if char_eqb c "+"%char then (false, s')
      else (false, s)
  | [] => (false, [])
  end.

(** The longest prefix of the form [(["_"] digit)*], as digit values, and
    what follows it. *)
Fixpoint digits_tail (s : str) : list Z * str :=
  match s with
  | c :: s' =>
      if is_digit c then
        let '(ds, r) := digits_tail s' in (digit_val c :: ds, r)
      else if char_eqb c "_"%char then
        match s' with
        | d :: s'' =>
            if is_digit d then
              let '(ds, r) := digits_tail s'' in (digit_val d :: ds, r)
            else ([], s)
        | [] => ([], s)
        end
      else ([], s)
  | [] => ([], [])
  end.

(** [digit (["_"] digit)*] when [s] starts with a digit, nothing otherwise. *)
Definition opt_digits (s : str) : list Z * str :=
  match s with
  | c :: _ => if is_digit c then digits_tail s else ([], s)
  | [] => ([], [])
  end.

Definition digits_value (ds : list Z) : Z :=
  fold_left (fun acc d => 10 * acc + d) ds 0.

Definition num_strip (s : str) : str :=
  rstrip_by is_num_space (lstrip_by is_num_space s).

(** The default limit of [int] on the number of digits of a decimal
    string ([sys.get_int_max_str_digits()]); leading zeros count, signs,
    underscores and whitespace do not. *)
Definition int_max_str_digits : Z := 4300.

(** [int(s)] for a [str], base 10: whitespace, an optional sign, and digits
    with single underscores between them; [ValueError] also when there are
    more digits than the limit. *)
Definition py_int (s : str) : result Z :=
  let '(neg, u) := take_sign (num_strip s) in
  match opt_digits u with
  | (d :: ds, []) =>
      if Z.of_nat (length (d :: ds)) <=? int_max_str_digits then
        let n := digits_value (d :: ds) in Ok (if neg then - n else n)
      else Raise ValueError
  | _ => Raise ValueError
  end.

Definition prec : Z := 53.
Definition emax : Z := 1024.

(** The binary64 nearest to [m * 10^e] (ties to even), for [0 <= m]. *)
Definition round_decimal (neg : bool) (m e : Z) : spec_float :=
  if m =? 0 then S754_zero neg
  else if 0 <=? e then binary_round prec emax neg (Z.to_pos (m * 10 ^ e)) 0
  else SFdiv prec emax (S754_finite neg (Z.to_pos m) 0)
                       (S754_finite false (Z.to_pos (10 ^ (- e))) 0).

(** A decimal literal [digits [. digits] [e [sign] digits]], or
    [. digits ...], as mantissa and exponent of ten. *)
Definition parse_decimal (u : str) : option (Z * Z) :=
  let '(ip, r1) := opt_digits u in
  let '(fp, r2) :=
    match r1 with
    | c :: r => if char_eqb c "."%char then opt_digits r else ([], r1)
    | [] => ([], [])
    end in
  match ip ++ fp with
  | [] => None
  | ds =>
      let m := digits_value ds in
      let k := Z.of_nat (length fp) in
      match r2 with
      | [] => Some (m, - k)
      | c :: r =>
          if char_eqb c "e"%char || char_eqb c "E"%char then
            let '(eneg, r') := take_sign r in
            match opt_digits r' with
            | (x :: xs, []) =>
                let e := digits_value (x :: xs) in
                Some (m, (if eneg then - e else e) - k)
            | _ => None
            end
          else None
      end
  end.

Definition lower_char (c : ascii) : ascii :=
  let n := code c in
  if ((65 <=? n) && (n <=? 90))%N then ascii_of_N (n + 32) else c.

(** [float(s)] for a [str]: a decimal literal, or [inf], [infinity] or
    [nan] in any case, with an optional sign; too large a literal is an
    infinity. *)
Definition py_float (s : str) : result spec_float :=
  let '(neg, u) := take_sign (num_strip s) in
  match parse_decimal u with
  | Some (m, e) => Ok (round_decimal neg m e)
  | None =>
      let w := map lower_char u in
      if str_eqb w (lit "inf") || str_eqb w (lit "infinity")
      then Ok (S754_infinity neg)
      else if str_eqb w (lit "nan") then Ok S754_nan
      else Raise ValueError
  end.

(** The constant [50.0]. *)
Definition fifty : spec_float := S754_finite false 7036874417766400 (-47).

(** [x / 50.0] *)
Definition div_50 (x : spec_float) : spec_float := SFdiv prec emax x fifty.

(** [num / den] rounded to the nearest integer, ties to even. *)
Definition round_half_even (num den : Z) : Z :=
  let q := num / den in
  match 2 * (num mod den) ?= den with
  | Lt => q
  | Gt => q + 1
  | Eq => if Z.even q then q else q + 1
  end.

(** [m * 2^e * 10^6], rounded to an integer. *)
Definition scaled6 (m : positive) (e : Z) : Z :=
  if 0 <=? e then Zpos m * 2 ^ e * 10 ^ 6
  else round_half_even (Zpos m * 10 ^ 6) (2 ^ (- e)).

Definition digit_char (d : Z) : ascii := ascii_of_N (Z.to_N (48 + d)).

(** The decimal digits of a natural number, without leading zeros. *)
Definition dec (n : Z) : str :=
  lit (DecimalString.NilEmpty.string_of_uint (N.to_uint (Z.to_N n))).

Definition frac6 (r : Z) : str :=
  map (fun k => digit_char ((r / 10 ^ k) mod 10)) [5; 4; 3; 2; 1; 0].

Definition fixed6 (neg : bool) (n : Z) : str :=
  (if neg then lit "-" else []) ++ dec (n / 10 ^ 6) ++ lit "." ++
  frac6 (n mod 10 ^ 6).

(** [f"{x:.6f}"] *)
Definition format_6f (x : spec_float) : str :=
  match x with
  | S754_nan => lit "nan"
  | S754_infinity neg => if neg then lit "-inf" else lit "inf"
  | S754_zero neg => fixed6 neg 0
  | S754_finite neg m e => fixed6 neg (scaled6 m e)
  end.

(** ** The helpers of [app.py] *)

Definition rtrim (s : str) : str := rstrip_space s.

Definition is_blank (s : str) : bool := isspace s.

Definition format_float_custom (value : spec_float) : str :=
  take 6 (format_6f value).

(** ** [process_text_file] *)

(** The loop variables. *)
Record state := {
  found_dcir : bool;
  processing_data : bool;
  header_lines_remaining : Z
}.

Definition init_state : state :=
  {| found_dcir := false; processing_data := false;
     header_lines_remaining := 0 |}.

(** The match decision of a line: both bar numbers hold 0 until their field
    parses. *)
Definition bar_match (bar_list_set : gset Z) (line : str) : result bool :=
  bar1 <- try_except_ValueError (py_int (strip (slice 0 6 line))) 0 ;;
  bar2 <- try_except_ValueError (py_int (strip (slice 7 12 line))) 0 ;;
  Ok (bool_decide (bar1 ∈ bar_list_set) || bool_decide (bar2 ∈ bar_list_set)).

(** [for i in range(6)]: the characters of [formatted], then spaces, are
    stored from position [off] on. *)
Fixpoint write_field (off : nat) (formatted : str) (range : list nat)
    (modified_line : list ascii) : result (list ascii) :=
  match range with
  | [] => Ok modified_line
  | i :: range' =>
      modified_line' <-
        (if (i <? length formatted)%nat
         then c <- getitem formatted i ;; setitem modified_line (off + i) c
         else setitem modified_line (off + i) " "%char) ;;
      write_field off formatted range' modified_line'
  end.

(** One [try] block: the field at [off] is recomputed from the text [src].
    [float] is the only step that raises [ValueError], and it comes before
    the first store, so that the handler finds [modified_line] as it was. *)
Definition rewrite_field (off : nat) (src : str) (modified_line : list ascii)
    : result (list ascii) :=
  try_except_ValueError
    (parsed <- py_float (rtrim src) ;;
     let value := div_50 parsed in
     let formatted := format_float_custom value in
     write_field off formatted (seq 0 6) modified_line)
    modified_line.

(** The branch [if bar_match:]. *)
Definition rewrite_fields (line : str) : result str :=
  let field18_23 := slice 17 23 line in
  let field24_29 := slice 23 29 line in
  let field30_35 := slice 29 35 line in
  let field36_41 := slice 35 41 line in
  let modified_line := line in
  modified_line <-
    (if is_blank field18_23 then rewrite_field 17 field24_29 modified_line
     else Ok modified_line) ;;
  modified_line <-
    (if is_blank field30_35 then rewrite_field 29 field36_41 modified_line
     else Ok modified_line) ;;
  Ok modified_line.

(** What is appended for a line that is not a terminator, in data state. *)
Definition data_line (bar_list_set : gset Z) (line : str) : result str :=
  if (42 <=? length line)%nat then
    marker <- getitem line 16 ;;
    if char_eqb marker "T"%char then
      matched <- bar_match bar_list_set line ;;
      if matched then rewrite_fields line else Ok line
    else Ok line
  else Ok line.

(** How one iteration ends: with [continue] or at the end of the body, or
    with [break]. *)
Inductive ctl :=
  | Next (st : state) (output_lines : list str)
  | Break (output_lines : list str).

Definition body (bar_list_set : gset Z) (lines : list str)
    (st : state) (output_lines : list str) (line : str) : result ctl :=
  if negb (found_dcir st) then
    if startswith (lit "DCIR") line then
      Ok (Next {| found_dcir := true;
                  processing_data := processing_data st;
                  header_lines_remaining := 2 |}
               (output_lines ++ [line]))
    else Ok (Next st (output_lines ++ [line]))
  else if 0 <? header_lines_remaining st then
    let remaining := header_lines_remaining st - 1 in
    Ok (Next {| found_dcir := found_dcir st;
                processing_data :=
                  if remaining =? 0 then true else processing_data st;
                header_lines_remaining := remaining |}
             (output_lines ++ [line]))
  else if startswith (lit "99999") line then
    current_line_index <- index lines line ;;
    Ok (Break ((output_lines ++ [line]) ++
               drop (current_line_index + 1) lines))
  else
    new_line <- data_line bar_list_set line ;;
    Ok (Next st (output_lines ++ [new_line])).

(** [for line in lines:], from the lines [rest] that are still to come. *)
Fixpoint for_lines (bar_list_set : gset Z) (lines : list str)
    (st : state) (output_lines : list str) (rest : list str)
    : result (list str) :=
  match rest with
  | [] => Ok output_lines
  | line :: rest' =>
      c <- body bar_list_set lines st output_lines line ;;
      match c with
      | Next st' output_lines' =>
          for_lines bar_list_set lines st' output_lines' rest'
      | Break output_lines' => Ok output_lines'
      end
  end.

(** The loop on the lines of the file. *)
Definition process_lines (bar_list_set : gset Z) (lines : list str)
    : result (list str) :=
  for_lines bar_list_set lines init_state [] lines.

Definition process_text_file (input_text : str) (bar_list_set : gset Z)
    : result str :=
  output_lines <- process_lines bar_list_set (splitlines input_text) ;;
  Ok (join [LF] output_lines).

(** ** The script around [process_text_file] *)

(** The truth value of a [str]: it is not empty. *)
Definition truthy (s : str) : bool :=
  match s with
  | [] => false
  | _ => true
  end.

(** [s.split(sep)] for a separator of one character: [cur] holds the
    current piece, reversed. There is always at least one piece. *)
Fixpoint split_from (sep : ascii) (cur : str) (s : str) : list str :=
  match s with
  | [] => [rev cur]
  | c :: s' =>
      if char_eqb c sep then rev cur :: split_from sep [] s'
      else split_from sep (c :: cur) s'
  end.

Definition split (sep : ascii) (s : str) : list str := split_from sep [] s.

(** [{int(x.strip()) for x in pieces if x.strip()}], from left to right:
    [acc] is the set built so far. *)
Fixpoint bar_set (acc : gset Z) (pieces : list str) : result (gset Z) :=
  match pieces with
  | [] => Ok acc
  | x :: pieces' =>
      if truthy (strip x) then
        n <- py_int (strip x) ;;
        bar_set (acc ∪ {[n]}) pieces'
      else bar_set acc pieces'
  end.

(** The sidebar: the set [bar_numbers], and whether the error message was
    shown. *)
Record sidebar := {
  bar_numbers : gset Z;
  error_shown : bool
}.

(** [bar_numbers = set()], then the [try] block on a non-empty input: on
    [ValueError] the set stays empty and the error is shown. *)
Definition read_bar_numbers (bar_list_input : str) : result sidebar :=
  if truthy bar_list_input then
    match bar_set ∅ (split ","%char bar_list_input) with
    | Ok numbers => Ok {| bar_numbers := numbers; error_shown := false |}
    | Raise ValueError => Ok {| bar_numbers := ∅; error_shown := true |}
    | Raise e => Raise e
    end
  else Ok {| bar_numbers := ∅; error_shown := false |}.

(** [processed_content] once a file is uploaded and the button is pressed:
    [None] stays when [process_text_file] raises. *)
Definition processed_content (file_contents : str) (numbers : gset Z)
    : option str :=
  match process_text_file file_contents numbers with
  | Ok text => Some text
  | Raise _ => None
  end.

(** [if processed_content:], the condition of the download section. *)
Definition download_offered (content : option str) : bool :=
  match content with
  | Some text => truthy text
  | None => false
  end.

(** * The vocabulary of the properties *)

(** A 42-character member line: bar 100, marker T, window A blank, window
    C "   500", window B "  1.25", window D "   100". *)
Definition sample_line : str :=
  lit "100      7     XT         500  1.25   100Z".

(** The same with window B blank. *)
Definition sample_line_blank_b : str :=
  lit "100      7     XT         500         100Z".

(** The same with "3.000" in window A and window B blank. *)
Definition sample_line_a_set : str :=
  lit "100      7     XT 3.000   500         100Z".

(** A line whose two bar fields are blank. *)
Definition sample_line_no_bars : str :=
  lit "               XT         500  1.25   100Z".

(** [s.ljust(w)] *)
Definition ljust (w : nat) (s : str) : str :=
  s ++ replicate (w - length s) " "%char.

Definition visible (c : ascii) : bool := negb (isspace_char c).

(** The text a window holds after its [try] block. *)
Definition recomputed (window src : str) : str :=
  match py_float (rtrim src) with
  | Ok parsed => ljust 6 (format_float_custom (div_50 parsed))
  | Raise _ => window
  end.

(** A window is recomputed when it is blank, and kept otherwise. *)
Definition new_window (window src : str) : str :=
  if is_blank window then recomputed window src else window.

Definition in_window_a (k : nat) : Prop := (17 <= k < 23)%nat.
Definition in_window_b (k : nat) : Prop := (29 <= k < 35)%nat.

(** A line qualifies for rewriting when it is long enough, carries the
    marker, and one of its bar numbers is a target. *)
Definition qualifies (ids : gset Z) (line : str) : Prop :=
  (42 <= length line)%nat /\ line !! 16%nat = Some "T"%char
  /\ bar_match ids line = Ok true.

(** The line appended for [line]: the same length, the same characters
    outside the two windows, and a change only when the line qualifies. *)
Definition framed (ids : gset Z) (line o : str) : Prop :=
  length o = length line
  /\ (forall k, ~ in_window_a k -> ~ in_window_b k -> o !! k = line !! k)
  /\ (o = line \/ qualifies ids line).

(** Data state: the header marker was seen and its block is over. *)
Definition data_state (st : state) : Prop :=
  found_dcir st = true /\ header_lines_remaining st <= 0.

(** The state in which the loop leaves the header block. *)
Definition after_header : state :=
  {| found_dcir := true; processing_data := true;
     header_lines_remaining := 0 |}.

Definition is_header (line : str) : Prop :=
  startswith (lit "DCIR") line = true.

Definition is_terminator (line : str) : Prop :=
  startswith (lit "99999") line = true.

(** Line [i] of [rest] is met in data state when the loop is in state [st]
    at the head of [rest] and reaches that line. *)
Definition reaches_data (st : state) (rest : list str) (i : nat) : Prop :=
  if found_dcir st then header_lines_remaining st <= Z.of_nat i
  else exists j d, (j + 3 <= i)%nat /\ rest !! j = Some d /\ is_header d.

(** Line [i] of the file is a data-state line: the header marker stands at
    least three lines above it. *)
Definition data_position (lines : list str) (i : nat) : Prop :=
  exists j d, (j + 3 <= i)%nat /\ lines !! j = Some d /\ is_header d.

(** A file with two sections, each closed by "99999"; the header marker
    opens the second one. *)
Definition two_section_lines : list str :=
  [lit "DBAR"; lit "99999"; lit "DCIR"; lit "(h1"; lit "(h2";
   lit "99999"; lit "FIM"].

Definition two_section_file : str := join [LF] two_section_lines.

(** An entry of the bar list is valid when it is blank or a number. *)
Definition valid_entry (x : str) : Prop :=
  truthy (strip x) = true -> exists n, py_int (strip x) = Ok n.

Definition invalid_entry (x : str) : Prop :=
  truthy (strip x) = true /\ py_int (strip x) = Raise ValueError.

(** No line that starts with "99999" stands twice in the file. *)
Definition terminators_unique (lines : list str) : Prop :=
  forall j m t, lines !! j = Some t -> lines !! m = Some t ->
                is_terminator t -> j = m.

(** The loop as a relation between the lines still to come and the lines
    appended for them, when the tail after the terminator is the tail of
    the file: one [body] per line until a terminator is met in data state,
    then the lines as they are. *)
Inductive run (ids : gset Z) : state -> list str -> list str -> Prop :=
  | run_done (st : state) : run ids st [] []
  | run_next (st st' : state) (line o : str) (rest outs : list str) :
      (forall lines out,
          body ids lines st out line = Ok (Next st' (out ++ [o]))) ->
      run ids st' rest outs ->
      run ids st (line :: rest) (o :: outs)
  | run_break (st : state) (line : str) (rest : list str) :
      data_state st -> is_terminator line ->
      run ids st (line :: rest) (line :: rest).

(** A number, as opposed to an infinity or a NaN. *)
Definition is_finite (x : spec_float) : bool :=
  match x with
  | S754_zero _ | S754_finite _ _ _ => true
  | S754_infinity _ | S754_nan => false
  end.

(** A line holds no line break. *)
Definition no_line_break (l : str) : Prop :=
  Forall (fun c => is_linebreak c = false) l.

(** ** Sample files *)

(** A file with a header, a second "DCIR" line among the data lines, a
    terminator, and a member line after it. *)
Definition sample_file : list str :=
  [lit "DCIR"; lit "("; lit "("; sample_line; lit "DCIR again"]
  ++ lit "99999" :: [sample_line_blank_b; lit "FIM"].

(** A member line whose window C holds "   abc". *)
Definition sample_line_bad_c : str :=
  lit "100      7     XT         abc  1.25   100Z".

(** A member line whose windows A and C are blank. *)
Definition sample_line_blank_c : str :=
  lit "100      7     XT              1.25   100Z".

(** * Properties *)

Lemma char_eqb_eq a b : char_eqb a b = true <-> a = b.
Proof.
  unfold char_eqb, code. rewrite N.eqb_eq. split; [|congruence].
  intros H. rewrite <- (ascii_N_embedding a), <- (ascii_N_embedding b).
  congruence.
Qed.

Example splitlines_ex :
  splitlines (lit "a" ++ CR :: LF :: lit "b" ++ [LF] ++ [LF] ++ lit "c" ++ [LF])
  = [lit "a"; lit "b"; []; lit "c"].
Proof. reflexivity. Qed.

Example sample_line_length : length sample_line = 42%nat.
Proof. reflexivity. Qed.

Example data_line_sample :
  data_line {[100]} sample_line
  = Ok (lit "100      7     XT10.000   500  1.25   100Z").
Proof. vm_compute. reflexivity. Qed.

Example data_line_sample_blank_b :
  data_line {[100]} sample_line_blank_b
  = Ok (lit "100      7     XT10.000   5002.0000   100Z").
Proof. vm_compute. reflexivity. Qed.

Example data_line_sample_no_bars :
  data_line {[0]} sample_line_no_bars
  = Ok (lit "               XT10.000   500  1.25   100Z").
Proof. vm_compute. reflexivity. Qed.

(** The numbers of the model on literals: [50.0], the rounding of
    [float], and the text of [f"{x:.6f}"], which is cut after 6 characters,
    not rounded to them. *)
Example fifty_is_50 : binary_normalize prec emax 50 0 false = fifty.
Proof. reflexivity. Qed.

Example py_float_tenth :
  py_float (lit "0.1") = Ok (S754_finite false 7205759403792794 (-56)).
Proof. vm_compute. reflexivity. Qed.

Example py_float_no_number : py_float (lit "12a") = Raise ValueError.
Proof. vm_compute. reflexivity. Qed.

Example py_int_blank : py_int (strip (lit "      ")) = Raise ValueError.
Proof. vm_compute. reflexivity. Qed.

Example py_int_underscore : py_int (strip (lit " -1_0 ")) = Ok (-10).
Proof. vm_compute. reflexivity. Qed.

Example format_6f_fraction :
  (v <- py_float (lit "-0.123456") ;; Ok (format_6f v))
  = Ok (lit "-0.123456").
Proof. vm_compute. reflexivity. Qed.

Example format_6f_padding :
  (v <- py_float (lit "12.34") ;; Ok (format_6f v)) = Ok (lit "12.340000").
Proof. vm_compute. reflexivity. Qed.

Example format_float_custom_truncates :
  (v <- py_float (rtrim (lit "999.99")) ;;
   Ok (format_6f (div_50 v), format_float_custom (div_50 v)))
  = Ok (lit "19.999800", lit "19.999").
Proof. vm_compute. reflexivity. Qed.

Example format_float_custom_large :
  (v <- py_float (rtrim (lit "1e+308")) ;; Ok (format_float_custom (div_50 v)))
  = Ok (lit "200000").
Proof. vm_compute. reflexivity. Qed.

Example format_float_custom_inf :
  (v <- py_float (rtrim (lit "9e9999")) ;; Ok (format_float_custom (div_50 v)))
  = Ok (lit "inf").
Proof. vm_compute. reflexivity. Qed.

Lemma length_frac6 (r : Z) : length (frac6 r) = 6%nat.
Proof. reflexivity. Qed.

(** ** Strings and lists *)

Lemma startswith_length_eq (a b : str) :
  length a = length b -> startswith a b = true -> a = b.
Proof.
  revert b. induction a as [|x a IH]; intros [|y b] Hlen Hsw;
    simpl in *; try congruence.
  apply andb_prop in Hsw as [Hxy Hab].
  apply char_eqb_eq in Hxy. subst y. f_equal. apply IH; [lia | exact Hab].
Qed.

Lemma startswith_refl (a : str) : startswith a a = true.
Proof.
  induction a as [|x a IH]; [reflexivity|]. simpl. rewrite IH.
  rewrite andb_true_r. apply char_eqb_eq. reflexivity.
Qed.

Lemma str_eqb_eq (a b : str) : str_eqb a b = true <-> a = b.
Proof.
  unfold str_eqb. split.
  - intros H. apply andb_prop in H as [Hlen Hsw].
    apply Nat.eqb_eq in Hlen. apply startswith_length_eq; assumption.
  - intros ->. rewrite Nat.eqb_refl, startswith_refl. reflexivity.
Qed.

(** [lines.index(line)] finds a line of [lines], at the latest where it is
    known to stand. *)
Lemma index_found (pre post : list str) (x : str) :
  exists i, index (pre ++ x :: post) x = Ok i /\ (i <= length pre)%nat.
Proof.
  induction pre as [|y pre IH]; simpl.
  - exists 0%nat. assert (str_eqb x x = true) as -> by (apply str_eqb_eq; reflexivity).
    split; [reflexivity | lia].
  - destruct (str_eqb y x).
    + exists 0%nat. split; [reflexivity | lia].
    + destruct IH as (i & -> & Hi). exists (S i). split; [reflexivity | lia].
Qed.

Lemma lookup_slice (a b : nat) (l : str) (i : nat) :
  slice a b l !! i = if decide (i < b - a)%nat then l !! (a + i)%nat else None.
Proof.
  unfold slice. destruct (decide (i < b - a)%nat) as [H|H].
  - rewrite lookup_take_lt by exact H. apply lookup_drop.
  - apply lookup_take_ge. lia.
Qed.

Lemma length_slice (a b : nat) (l : str) :
  (b <= length l)%nat -> length (slice a b l) = (b - a)%nat.
Proof. intros H. unfold slice. rewrite length_take, length_drop. lia. Qed.

Lemma lookup_ljust (w : nat) (f : str) (i : nat) :
  (length f <= w)%nat -> (i < w)%nat ->
  ljust w f !! i = Some (nth i f " "%char).
Proof.
  intros Hf Hi. unfold ljust.
  destruct (decide (i < length f)%nat) as [H|H].
  - rewrite lookup_app_l by exact H.
    destruct (f !! i) as [c|] eqn:E.
    + erewrite nth_lookup_Some by exact E. reflexivity.
    + apply lookup_ge_None in E. lia.
  - rewrite lookup_app_r by lia. rewrite lookup_replicate_2 by lia.
    rewrite nth_overflow by lia. reflexivity.
Qed.

Lemma length_ljust (w : nat) (f : str) :
  (length f <= w)%nat -> length (ljust w f) = w.
Proof. intros H. unfold ljust. rewrite length_app, length_replicate. lia. Qed.

(** ** Exceptions of the parsers *)

Lemma py_int_raises (s0 : str) (e : exn) :
  py_int s0 = Raise e -> e = ValueError.
Proof.
  unfold py_int. destruct (take_sign _) as [neg u].
  destruct (opt_digits u) as [[|d ds] [|c r]]; try congruence.
  destruct (_ <=? _); congruence.
Qed.

Lemma py_float_raises (s0 : str) (e : exn) :
  py_float s0 = Raise e -> e = ValueError.
Proof.
  unfold py_float. destruct (take_sign _) as [neg u].
  destruct (parse_decimal u) as [[m k]|]; [congruence|].
  destruct (_ || _); [congruence|].
  destruct (str_eqb _ _); congruence.
Qed.

Lemma try_py_int_ok (s0 : str) (dflt : Z) :
  exists n, try_except_ValueError (py_int s0) dflt = Ok n.
Proof.
  destruct (py_int s0) as [n|e] eqn:E; simpl; [eauto|].
  apply py_int_raises in E. subst e. eauto.
Qed.

Lemma bar_match_total (ids : gset Z) (line : str) :
  exists b, bar_match ids line = Ok b.
Proof.
  unfold bar_match.
  destruct (try_py_int_ok (strip (slice 0 6 line)) 0) as [n1 ->].
  destruct (try_py_int_ok (strip (slice 7 12 line)) 0) as [n2 ->].
  simpl. eauto.
Qed.

(** ** The formatted text starts with a sign, a digit or a letter *)

Lemma dec_head (n : Z) : exists c r, dec n = c :: r /\ visible c = true.
Proof.
  unfold dec. destruct (Z.to_N n) as [|p]; simpl.
  - eexists _, _. split; reflexivity.
  - pose proof (DecimalPos.Unsigned.to_uint_nonnil p) as Hnil.
    destruct (Pos.to_uint p); [congruence| ..]; simpl;
      eexists _, _; (split; [reflexivity | reflexivity]).
Qed.

Lemma fixed6_head (neg : bool) (n : Z) :
  exists c r, fixed6 neg n = c :: r /\ visible c = true.
Proof.
  unfold fixed6. destruct neg.
  - simpl. eexists _, _. split; reflexivity.
  - destruct (dec_head (n / 10 ^ 6)) as (c & r & -> & Hc).
    simpl. eauto.
Qed.

Lemma format_6f_head (x : spec_float) :
  exists c r, format_6f x = c :: r /\ visible c = true.
Proof.
  destruct x as [neg|neg| |neg m e]; simpl.
  - apply fixed6_head.
  - destruct neg; eexists _, _; split; reflexivity.
  - eexists _, _; split; reflexivity.
  - apply fixed6_head.
Qed.

Lemma length_format_float_custom (x : spec_float) :
  (length (format_float_custom x) <= 6)%nat.
Proof. unfold format_float_custom. rewrite length_take. lia. Qed.

(** A recomputed window is never blank. *)
Lemma recomputed_not_blank (x : spec_float) :
  is_blank (ljust 6 (format_float_custom x)) = false.
Proof.
  unfold format_float_custom.
  destruct (format_6f_head x) as (c & r & -> & Hc).
  unfold ljust. simpl. unfold visible in Hc.
  apply negb_true_iff in Hc. rewrite Hc. reflexivity.
Qed.

(** ** The stores of one field *)

Lemma write_step (off i : nat) (f : str) (ml : list ascii) :
  (off + i < length ml)%nat ->
  (if (i <? length f)%nat
   then c <- getitem f i ;; setitem ml (off + i) c
   else setitem ml (off + i) " "%char)
  = Ok (<[(off + i)%nat := nth i f " "%char]> ml).
Proof.
  intros Hlen. unfold setitem, getitem.
  assert ((off + i <? length ml)%nat = true) as Hlt by (apply Nat.ltb_lt; lia).
  destruct (i <? length f)%nat eqn:Hi.
  - apply Nat.ltb_lt in Hi. destruct (f !! i) as [c|] eqn:E.
    + simpl. rewrite Hlt. erewrite nth_lookup_Some by exact E. reflexivity.
    + apply lookup_ge_None in E. lia.
  - apply Nat.ltb_ge in Hi. rewrite Hlt, nth_overflow by lia. reflexivity.
Qed.

Lemma write_field_seq (off : nat) (f : str) (n : nat) :
  forall (a : nat) (ml : list ascii),
    (off + a + n <= length ml)%nat ->
    exists ml', write_field off f (seq a n) ml = Ok ml'
      /\ length ml' = length ml
      /\ forall k, ml' !! k =
           if decide (off + a <= k < off + a + n)%nat
           then Some (nth (k - off) f " "%char) else ml !! k.
Proof.
  induction n as [|n IH]; intros a ml Hlen.
  - exists ml. repeat split. intros k. destruct (decide _); [lia | reflexivity].
  - simpl. rewrite write_step by lia. simpl.
    destruct (IH (S a) (<[(off + a)%nat := nth a f " "%char]> ml))
      as (ml' & Hw & Hl & Hk).
    { rewrite length_insert. lia. }
    exists ml'. split; [exact Hw|]. split.
    { rewrite Hl. apply length_insert. }
    intros k. rewrite Hk.
    destruct (decide (off + S a <= k < off + S a + n)%nat) as [H1|H1];
      destruct (decide (off + a <= k < off + a + S n)%nat) as [H2|H2];
      try reflexivity; try lia.
    + assert (k = off + a)%nat as -> by lia.
      rewrite list_lookup_insert_eq by lia.
      replace (off + a - off)%nat with a by lia. reflexivity.
    + apply list_lookup_insert_ne. lia.
Qed.

(** Outside the field at [off] nothing is stored; the field itself holds
    the formatted text, left-justified. *)
Lemma write_field_window (off : nat) (f : str) (ml : list ascii) :
  (length f <= 6)%nat -> (off + 6 <= length ml)%nat ->
  exists ml', write_field off f (seq 0 6) ml = Ok ml'
    /\ length ml' = length ml
    /\ slice off (off + 6) ml' = ljust 6 f
    /\ forall k, ~ (off <= k < off + 6)%nat -> ml' !! k = ml !! k.
Proof.
  intros Hf Hlen.
  destruct (write_field_seq off f 6 0 ml) as (ml' & Hw & Hl & Hk); [lia|].
  exists ml'. split; [exact Hw|]. split; [exact Hl|]. split.
  - apply list_eq. intros i. rewrite lookup_slice, Hk.
    destruct (decide (i < off + 6 - off)%nat) as [Hi|Hi].
    + destruct (decide _) as [_|]; [|lia].
      replace (off + i - off)%nat with i by lia.
      symmetry. apply lookup_ljust; lia.
    + symmetry. apply lookup_ge_None. rewrite length_ljust by lia. lia.
  - intros k Hout. rewrite Hk. destruct (decide _); [lia | reflexivity].
Qed.

Lemma rewrite_field_spec (off : nat) (src : str) (ml : list ascii) :
  (off + 6 <= length ml)%nat ->
  exists ml', rewrite_field off src ml = Ok ml'
    /\ length ml' = length ml
    /\ slice off (off + 6) ml' = recomputed (slice off (off + 6) ml) src
    /\ forall k, ~ (off <= k < off + 6)%nat -> ml' !! k = ml !! k.
Proof.
  intros Hlen. unfold rewrite_field, recomputed.
  destruct (py_float (rtrim src)) as [v|e] eqn:E; cbn [bind].
  - destruct (write_field_window off (format_float_custom (div_50 v)) ml)
      as (ml' & Hw & Hl & Hs & Hk);
      [apply length_format_float_custom | exact Hlen |].
    rewrite Hw. cbn [try_except_ValueError]. eauto.
  - apply py_float_raises in E. subst e. exists ml. auto.
Qed.

Lemma slice_ext (a b : nat) (l1 l2 : str) :
  (forall k, (a <= k < b)%nat -> l1 !! k = l2 !! k) ->
  slice a b l1 = slice a b l2.
Proof.
  intros H. apply list_eq. intros i. rewrite !lookup_slice.
  destruct (decide _); [apply H; lia | reflexivity].
Qed.

(** ** One line in data state *)

Lemma rewrite_fields_spec (line : str) :
  (35 <= length line)%nat ->
  exists o, rewrite_fields line = Ok o
    /\ length o = length line
    /\ slice 17 23 o = new_window (slice 17 23 line) (slice 23 29 line)
    /\ slice 29 35 o = new_window (slice 29 35 line) (slice 35 41 line)
    /\ forall k, ~ in_window_a k -> ~ in_window_b k -> o !! k = line !! k.
Proof.
  intros Hlen. unfold rewrite_fields, new_window, in_window_a, in_window_b.
  assert (exists m1, (if is_blank (slice 17 23 line)
                      then rewrite_field 17 (slice 23 29 line) line
                      else Ok line) = Ok m1
            /\ length m1 = length line
            /\ slice 17 23 m1 =
                 (if is_blank (slice 17 23 line)
                  then recomputed (slice 17 23 line) (slice 23 29 line)
                  else slice 17 23 line)
            /\ forall k, ~ (17 <= k < 23)%nat -> m1 !! k = line !! k)
    as (m1 & -> & Hl1 & Hs1 & Hk1).
  { destruct (is_blank (slice 17 23 line)).
    - destruct (rewrite_field_spec 17 (slice 23 29 line) line)
        as (m & ? & ? & ? & ?); [lia|]. exists m. auto.
    - exists line. auto. }
  cbn [bind].
  assert (slice 29 35 m1 = slice 29 35 line) as Hb1.
  { apply slice_ext. intros k Hk. apply Hk1. lia. }
  assert (exists m2, (if is_blank (slice 29 35 line)
                      then rewrite_field 29 (slice 35 41 line) m1
                      else Ok m1) = Ok m2
            /\ length m2 = length m1
            /\ slice 29 35 m2 =
                 (if is_blank (slice 29 35 line)
                  then recomputed (slice 29 35 line) (slice 35 41 line)
                  else slice 29 35 line)
            /\ forall k, ~ (29 <= k < 35)%nat -> m2 !! k = m1 !! k)
    as (m2 & -> & Hl2 & Hs2 & Hk2).
  { destruct (is_blank (slice 29 35 line)).
    - destruct (rewrite_field_spec 29 (slice 35 41 line) m1)
        as (m & ? & ? & Hs & ?); [lia|]. exists m.
      change (29 + 6)%nat with 35%nat in Hs. rewrite Hb1 in Hs. auto.
    - exists m1. auto. }
  cbn [bind]. exists m2. split; [reflexivity|]. split; [lia|]. split.
  { rewrite <- Hs1. apply slice_ext. intros k Hk. apply Hk2. lia. }
  split; [exact Hs2|].
  intros k Ha Hb. rewrite Hk2 by exact Hb. apply Hk1. exact Ha.
Qed.

Lemma qualifies_dec (ids : gset Z) (line : str) :
  qualifies ids line \/ ~ qualifies ids line.
Proof.
  unfold qualifies.
  destruct (le_lt_dec 42 (length line)) as [Hlen|Hlen];
    [|right; intros (? & _); lia].
  destruct (line !! 16%nat) as [c|]; [|right; intros (_ & ? & _); congruence].
  destruct (ascii_dec c "T") as [->|Hc];
    [|right; intros (_ & ? & _); congruence].
  destruct (bar_match ids line) as [[|]|e];
    [left; auto | right; intros (_ & _ & ?); congruence ..].
Qed.

Lemma data_line_qualifies (ids : gset Z) (line : str) :
  qualifies ids line -> data_line ids line = rewrite_fields line.
Proof.
  intros (Hlen & HT & Hm). unfold data_line, getitem.
  apply Nat.leb_le in Hlen. rewrite Hlen, HT. cbn [bind].
  assert (char_eqb "T" "T" = true) as -> by reflexivity.
  rewrite Hm. reflexivity.
Qed.

Lemma data_line_other (ids : gset Z) (line : str) :
  ~ qualifies ids line -> data_line ids line = Ok line.
Proof.
  intros Hq. unfold data_line, getitem.
  destruct (42 <=? length line)%nat eqn:Hlen; [|reflexivity].
  apply Nat.leb_le in Hlen.
  destruct (line !! 16%nat) as [c|] eqn:E;
    [|apply lookup_ge_None in E; lia].
  cbn [bind]. destruct (char_eqb c "T") eqn:Hc; [|reflexivity].
  apply char_eqb_eq in Hc. subst c.
  destruct (bar_match_total ids line) as [[|] Hb]; rewrite Hb; cbn [bind];
    [|reflexivity].
  exfalso. apply Hq. repeat split; assumption.
Qed.

Lemma framed_refl (ids : gset Z) (line : str) : framed ids line line.
Proof. repeat split; auto. Qed.

(** [data_line] never raises. A line that does not qualify is returned as
    it is; in one that qualifies each window is recomputed when blank. *)
Lemma data_line_spec (ids : gset Z) (line : str) :
  exists o, data_line ids line = Ok o
    /\ length o = length line
    /\ (forall k, ~ in_window_a k -> ~ in_window_b k -> o !! k = line !! k)
    /\ ((o = line /\ ~ qualifies ids line)
        \/ (qualifies ids line
            /\ slice 17 23 o
               = new_window (slice 17 23 line) (slice 23 29 line)
            /\ slice 29 35 o
               = new_window (slice 29 35 line) (slice 35 41 line))).
Proof.
  destruct (qualifies_dec ids line) as [Hq|Hq].
  - rewrite (data_line_qualifies _ _ Hq).
    destruct (rewrite_fields_spec line) as (o & Ho & Hl & Ha & Hb & Hk).
    { destruct Hq as (Hlen & _). lia. }
    exists o. split; [exact Ho|]. split; [exact Hl|]. split; [exact Hk|].
    right. auto.
  - rewrite (data_line_other _ _ Hq). exists line.
    split; [reflexivity|]. split; [reflexivity|]. split; [reflexivity|].
    left. auto.
Qed.

Lemma data_line_framed (ids : gset Z) (line : str) :
  exists o, data_line ids line = Ok o /\ framed ids line o.
Proof.
  destruct (data_line_spec ids line) as (o & Ho & Hl & Hk & Hc).
  exists o. split; [exact Ho|]. split; [exact Hl|]. split; [exact Hk|].
  destruct Hc as [[? _]|[? _]]; auto.
Qed.

(** ** The loop *)

Lemma body_data (ids : gset Z) (lines : list str) (st : state)
    (out : list str) (line : str) :
  data_state st -> ~ is_terminator line ->
  body ids lines st out line
  = (new_line <- data_line ids line ;; Ok (Next st (out ++ [new_line]))).
Proof.
  intros [Hf Hh] Ht. unfold body. rewrite Hf. cbn [negb].
  assert ((0 <? header_lines_remaining st) = false) as ->
    by (apply Z.ltb_ge; exact Hh).
  unfold is_terminator in Ht. destruct (startswith (lit "99999") line);
    [congruence | reflexivity].
Qed.

(** One iteration either appends one line for [line] and goes on, or
    appends [line] and a tail of [lines] and stops. *)
Lemma body_cases (ids : gset Z) (pre : list str) (line : str)
    (rest : list str) (st : state) (out : list str) :
  (exists st' o,
      body ids (pre ++ line :: rest) st out line = Ok (Next st' (out ++ [o]))
      /\ framed ids line o
      /\ (o = line \/ data_state st)
      /\ (forall i, reaches_data st' rest i ->
                    reaches_data st (line :: rest) (S i)))
  \/ (exists idx,
      body ids (pre ++ line :: rest) st out line
      = Ok (Break ((out ++ [line]) ++ drop (idx + 1) (pre ++ line :: rest)))
      /\ (idx <= length pre)%nat
      /\ data_state st /\ is_terminator line).
Proof.
  unfold body. destruct st as [f p h]. cbn [found_dcir negb].
  destruct f.
  - cbn [header_lines_remaining processing_data].
    destruct (0 <? h) eqn:Hh.
    + left. eexists _, line. split; [reflexivity|].
      split; [apply framed_refl|]. split; [left; reflexivity|].
      unfold reaches_data. cbn [found_dcir header_lines_remaining].
      intros i Hi. lia.
    + apply Z.ltb_ge in Hh.
      destruct (startswith (lit "99999") line) eqn:Ht.
      * right. destruct (index_found pre rest line) as (idx & -> & Hidx).
        exists idx. cbn [bind]. repeat split; auto.
      * left. destruct (data_line_framed ids line) as (o & -> & Ho).
        cbn [bind]. eexists _, o. split; [reflexivity|].
        split; [exact Ho|]. split; [right; split; auto|].
        unfold reaches_data. cbn [found_dcir header_lines_remaining].
        intros i Hi. lia.
  - destruct (startswith (lit "DCIR") line) eqn:Hd.
    + left. eexists _, line. split; [reflexivity|].
      split; [apply framed_refl|]. split; [left; reflexivity|].
      unfold reaches_data. cbn [found_dcir header_lines_remaining].
      intros i Hi. exists 0%nat, line. repeat split; [lia | exact Hd].
    + left. eexists _, line. split; [reflexivity|].
      split; [apply framed_refl|]. split; [left; reflexivity|].
      unfold reaches_data. cbn [found_dcir].
      intros i (j & d & Hj & Hl & Hd'). exists (S j), d.
      repeat split; [lia | exact Hl | exact Hd'].
Qed.

Lemma data_state_reaches (st : state) (rest : list str) :
  data_state st -> reaches_data st rest 0.
Proof. intros [Hf Hh]. unfold reaches_data. rewrite Hf. simpl. exact Hh. Qed.

(** The whole loop, from any state: the lines it appends one by one for the
    first [n] lines of [rest], then, after a terminator, a block [mid]
    of lines of the file, then the lines of [rest] from [n] on. Either the
    loop went through all of [rest], or line [n - 1] is a terminator met in
    data state. *)
Lemma for_lines_spec (ids : gset Z) (rest : list str) :
  forall (pre : list str) (st : state) (out : list str),
  exists (emitted mid : list str) (n : nat),
    for_lines ids (pre ++ rest) st out rest
    = Ok (out ++ emitted ++ mid ++ drop n rest)
    /\ length emitted = n /\ (n <= length rest)%nat
    /\ Forall (fun x => x ∈ pre ++ rest) mid
    /\ ((n = length rest /\ mid = [])
        \/ (exists m t, n = S m /\ rest !! m = Some t /\ is_terminator t
                        /\ reaches_data st rest m))
    /\ forall i line o, rest !! i = Some line -> emitted !! i = Some o ->
         framed ids line o /\ (o = line \/ reaches_data st rest i).
Proof.
  induction rest as [|line rest IH]; intros pre st out.
  - exists [], [], 0%nat. simpl. rewrite app_nil_r.
    repeat split; auto. all: intros; discriminate.
  - cbn [for_lines].
    destruct (body_cases ids pre line rest st out)
      as [(st' & o & -> & Hfr & Hds & Hreach)
         | (idx & -> & Hidx & Hst & Hterm)].
    + cbn [bind]. specialize (IH (pre ++ [line]) st' (out ++ [o])).
      rewrite <- app_assoc in IH. cbn [app] in IH.
      destruct IH
        as (emitted & mid & n & -> & Hlen & Hn & Hmid & Hstop & Hall).
      exists (o :: emitted), mid, (S n). split.
      { rewrite <- app_assoc. reflexivity. }
      split; [simpl; lia|]. split; [simpl; lia|]. split; [exact Hmid|].
      split.
      { destruct Hstop as [[-> ->] | (m & t & -> & Ht & Hterm & Hm)].
        - left. split; reflexivity.
        - right. exists (S m), t. repeat split; auto. }
      intros [|i] l o' Hl Ho'; simpl in Hl, Ho'.
      * injection Hl as <-. injection Ho' as <-. split; [exact Hfr|].
        destruct Hds as [->|Hds]; [left; reflexivity|].
        right. apply data_state_reaches. exact Hds.
      * destruct (Hall i l o' Hl Ho') as [H1 [H2|H2]];
          (split; [exact H1|]); [left; exact H2|].
        right. apply Hreach. exact H2.
    + cbn [bind].
      exists [line], (drop (idx + 1) (pre ++ [line])), 1%nat. split.
      { f_equal. rewrite <- !app_assoc. f_equal. cbn [app]. f_equal.
        rewrite (cons_middle line pre rest), app_assoc.
        rewrite drop_app_le by (rewrite length_app; simpl; lia).
        simpl. rewrite drop_0. reflexivity. }
      split; [reflexivity|]. split; [simpl; lia|]. split.
      { apply Forall_forall. intros x Hx.
        apply list_elem_of_lookup in Hx as [k Hk].
        rewrite lookup_drop in Hk. apply list_elem_of_lookup_2 in Hk.
        rewrite (cons_middle line pre rest), app_assoc.
        apply elem_of_app. left. exact Hk. }
      split.
      { right. exists 0%nat, line. repeat split; auto.
        apply data_state_reaches. exact Hst. }
      intros [|i] l o' Hl Ho'; simpl in Hl, Ho'; [|discriminate].
      injection Hl as <-. injection Ho' as <-.
      split; [apply framed_refl | left; reflexivity].
Qed.

(** Before the header marker every line is copied. *)
Lemma for_lines_preheader (ids : gset Z) (lines pre rest : list str) :
  forall (st : state) (out : list str),
    found_dcir st = false -> Forall (fun l => ~ is_header l) pre ->
    for_lines ids lines st out (pre ++ rest)
    = for_lines ids lines st (out ++ pre) rest.
Proof.
  induction pre as [|line pre IH]; intros st out Hf Hpre.
  - simpl. rewrite app_nil_r. reflexivity.
  - apply Forall_cons in Hpre as [Hline Hpre]. cbn [app for_lines].
    unfold body. rewrite Hf. cbn [negb]. unfold is_header in Hline.
    destruct (startswith (lit "DCIR") line); [congruence|]. cbn [bind].
    rewrite IH by assumption. rewrite <- app_assoc. reflexivity.
Qed.

(** The header marker and the two lines after it are copied, whatever they
    hold, and the loop is in data state after them. *)
Lemma for_lines_header (ids : gset Z) (lines rest : list str)
    (st : state) (out : list str) (d h1 h2 : str) :
  found_dcir st = false -> is_header d ->
  exists st', data_state st'
    /\ for_lines ids lines st out (d :: h1 :: h2 :: rest)
       = for_lines ids lines st' (out ++ [d; h1; h2]) rest.
Proof.
  intros Hf Hd. unfold is_header in Hd. eexists. split; cycle 1.
  - cbn [for_lines]. unfold body at 1. rewrite Hf, Hd. cbn [negb bind].
    unfold body at 1. cbn [found_dcir header_lines_remaining negb bind].
    assert ((0 <? 2) = true) as -> by reflexivity. cbn [bind].
    unfold body at 1. cbn [found_dcir header_lines_remaining negb bind].
    assert ((0 <? 2 - 1) = true) as -> by reflexivity. cbn [bind].
    rewrite <- !app_assoc. cbn [app]. reflexivity.
  - split; [reflexivity | simpl; lia].
Qed.

(** ** Data lines *)

Lemma new_window_parsed (window src : str) (v : spec_float) :
  is_blank window = true -> py_float (rtrim src) = Ok v ->
  new_window window src = ljust 6 (take 6 (format_6f (div_50 v))).
Proof. intros Hb Hv. unfold new_window, recomputed. rewrite Hb, Hv. reflexivity. Qed.

Lemma new_window_not_blank (window src : str) :
  is_blank window = false -> new_window window src = window.
Proof. intros Hb. unfold new_window. rewrite Hb. reflexivity. Qed.

(** A window that was recomputed is not blank any more. *)
Lemma new_window_changed (window src : str) :
  new_window window src <> window ->
  is_blank (new_window window src) = false.
Proof.
  unfold new_window, recomputed. destruct (is_blank window); [|congruence].
  destruct (py_float (rtrim src)) as [v|e]; [|congruence].
  intros _. apply recomputed_not_blank.
Qed.

Lemma startswith_lookup (p : str) :
  forall a b : str,
    (forall k, (k < length p)%nat -> a !! k = b !! k) ->
    startswith p a = startswith p b.
Proof.
  induction p as [|x p IH]; intros a b H; [reflexivity|].
  pose proof (H 0%nat ltac:(simpl; lia)) as H0.
  destruct a as [|y a], b as [|z b]; simpl in H0; try congruence.
  injection H0 as <-. simpl. f_equal. apply IH.
  intros k Hk. apply (H (S k)). simpl. lia.
Qed.

(** In data state a line that is no terminator is replaced by its
    [data_line]. *)
Lemma body_data_spec (ids : gset Z) (lines : list str) (st : state)
    (out : list str) (line : str) :
  data_state st -> ~ is_terminator line ->
  exists o, body ids lines st out line = Ok (Next st (out ++ [o]))
    /\ length o = length line
    /\ (forall k, ~ in_window_a k -> ~ in_window_b k -> o !! k = line !! k)
    /\ ((o = line /\ ~ qualifies ids line)
        \/ (qualifies ids line
            /\ slice 17 23 o
               = new_window (slice 17 23 line) (slice 23 29 line)
            /\ slice 29 35 o
               = new_window (slice 29 35 line) (slice 35 41 line))).
Proof.
  intros Hst Ht. rewrite body_data by assumption.
  destruct (data_line_spec ids line) as (o & -> & H). exists o.
  split; [reflexivity | exact H].
Qed.

(** A line that is no terminator is copied, or, in data state, replaced
    by its [data_line]; the loop goes on. *)
Lemma body_not_terminator (ids : gset Z) (lines : list str) (st : state)
    (out : list str) (line : str) :
  ~ is_terminator line ->
  exists st' o, body ids lines st out line = Ok (Next st' (out ++ [o]))
    /\ (o = line \/ (data_state st /\ data_line ids line = Ok o)).
Proof.
  intros Ht. unfold body. destruct st as [f p h].
  cbn [found_dcir negb header_lines_remaining processing_data].
  destruct f; cbn [negb].
  - destruct (0 <? h) eqn:Hh.
    + eexists _, line. split; [reflexivity | left; reflexivity].
    + apply Z.ltb_ge in Hh. unfold is_terminator in Ht.
      destruct (startswith (lit "99999") line); [congruence|].
      destruct (data_line_spec ids line) as (o & Ho & _). rewrite Ho.
      cbn [bind]. eexists _, o. split; [reflexivity|]. right.
      split; [split; [reflexivity | exact Hh] | reflexivity].
  - destruct (startswith (lit "DCIR") line);
      eexists _, line; (split; [reflexivity | left; reflexivity]).
Qed.

Lemma framed_not_terminator (line o : str) :
  (forall k, ~ in_window_a k -> ~ in_window_b k -> o !! k = line !! k) ->
  ~ is_terminator line -> ~ is_terminator o.
Proof.
  intros Hk Ht Ho. apply Ht. unfold is_terminator in *.
  rewrite (startswith_lookup (lit "99999") line o); [exact Ho|].
  intros k Hlt. simpl in Hlt. symmetry.
  apply Hk; unfold in_window_a, in_window_b; lia.
Qed.

(** ** The terminator and [lines.index] *)

Example two_section_split : splitlines two_section_file = two_section_lines.
Proof. reflexivity. Qed.

Lemma index_first (pre post : list str) (x : str) :
  x ∉ pre -> index (pre ++ x :: post) x = Ok (length pre).
Proof.
  induction pre as [|y pre IH]; intros Hx; simpl.
  - assert (str_eqb x x = true) as -> by (apply str_eqb_eq; reflexivity).
    reflexivity.
  - apply not_elem_of_cons in Hx as [Hne Hx].
    destruct (str_eqb y x) eqn:E.
    + apply str_eqb_eq in E. congruence.
    + rewrite IH by exact Hx. reflexivity.
Qed.

(** When the terminator line stands nowhere above, the loop ends with the
    lines that follow it. *)
Lemma terminator_first_occurrence (ids : gset Z) (pre rest : list str)
    (st : state) (out : list str) (line : str) :
  data_state st -> is_terminator line -> line ∉ pre ->
  for_lines ids (pre ++ line :: rest) st out (line :: rest)
  = Ok (out ++ line :: rest).
Proof.
  intros [Hf Hh] Ht Hpre. cbn [for_lines]. unfold body. rewrite Hf.
  cbn [negb].
  assert ((0 <? header_lines_remaining st) = false) as ->
    by (apply Z.ltb_ge; exact Hh).
  unfold is_terminator in Ht. rewrite Ht.
  rewrite index_first by exact Hpre. cbn [bind].
  rewrite (cons_middle line pre rest), app_assoc.
  rewrite drop_app_length' by (rewrite length_app; simpl; lia).
  rewrite <- app_assoc. reflexivity.
Qed.

(** In data state, lines that are no terminators are replaced one by one
    by their [data_line], and the state stays. *)
Lemma for_lines_data (ids : gset Z) (st : state) (ds : list str) :
  data_state st -> Forall (fun l => ~ is_terminator l) ds ->
  exists ds', Forall2 (fun l o => data_line ids l = Ok o) ds ds'
    /\ forall lines out rest,
         for_lines ids lines st out (ds ++ rest)
         = for_lines ids lines st (out ++ ds') rest.
Proof.
  intros Hst. induction ds as [|l ds IH]; intros Hno.
  - exists []. split; [constructor|]. intros lines out rest.
    rewrite app_nil_r. reflexivity.
  - apply Forall_cons in Hno as [Hl Hno].
    destruct (IH Hno) as (ds' & Hall & Hrun).
    destruct (data_line_spec ids l) as (o & Ho & _).
    exists (o :: ds'). split; [constructor; assumption|].
    intros lines out rest. cbn [app for_lines].
    rewrite body_data by assumption. rewrite Ho. cbn [bind].
    rewrite Hrun, <- app_assoc. reflexivity.
Qed.

(** Every input line has its output line, which has the same length and
    the same characters outside window A (offsets 17 to 22) and window B
    (offsets 29 to 34), and which differs from it only when the line stands
    in data state, is at least 42 characters long, has 'T' at offset 16 and
    matches the target set. The loop appends the output lines of the first
    [n] input lines one by one. Either these are all the lines, or line
    [n - 1] is a terminator met in data state, and the lines from [n] on
    end the output as they are ([mid] holds what the loop appends between
    the two: lines of the input, as they are). *)
Lemma emitted_lines_framed (ids : gset Z) (lines : list str) :
  exists (out emitted mid : list str) (n : nat),
    process_lines ids lines = Ok out
    /\ out = emitted ++ mid ++ drop n lines
    /\ length emitted = n /\ (n <= length lines)%nat
    /\ Forall (fun x => x ∈ lines) mid
    /\ ((n = length lines /\ mid = [])
        \/ (exists m t, n = S m /\ lines !! m = Some t /\ is_terminator t
                        /\ data_position lines m))
    /\ (forall i line, (n <= i)%nat -> lines !! i = Some line ->
          out !! (i + length mid)%nat = Some line)
    /\ forall i line o, lines !! i = Some line -> emitted !! i = Some o ->
         length o = length line
         /\ (forall k, ~ in_window_a k -> ~ in_window_b k ->
                       o !! k = line !! k)
         /\ (o = line
             \/ (data_position lines i /\ (42 <= length line)%nat
                 /\ line !! 16%nat = Some "T"%char
                 /\ bar_match ids line = Ok true)).
Proof.
  destruct (for_lines_spec ids lines [] init_state [])
    as (emitted & mid & n & H & Hlen & Hn & Hmid & Hstop & Hall).
  cbn [app] in H, Hmid.
  exists (emitted ++ mid ++ drop n lines), emitted, mid, n.
  split; [exact H|]. split; [reflexivity|]. split; [exact Hlen|].
  split; [exact Hn|]. split; [exact Hmid|]. split; [exact Hstop|].
  split.
  { intros i line Hi Hl.
    rewrite lookup_app_r by lia. rewrite lookup_app_r by lia.
    rewrite lookup_drop. rewrite <- Hl. f_equal. lia. }
  intros i line o Hl Ho.
  destruct (Hall i line o Hl Ho) as [(H1 & H2 & H3) H4].
  split; [exact H1|]. split; [exact H2|].
  destruct H3 as [H3|H3]; [left; exact H3|].
  destruct H4 as [H4|H4]; [left; exact H4|].
  right. split; [exact H4 | exact H3].
Qed.

(** * The claims *)

(** The side conditions of the claims on literals. *)
Ltac in_data_state := split; [reflexivity | simpl; lia].
Ltac not_prefix := unfold is_terminator, is_header; vm_compute; discriminate.
Ltac by_evaluation := vm_compute; reflexivity.

(** C1 at the two-section file: line 5 is a terminator met in data state,
    and the line stands at position 1 as well. The loop appends the lines
    from position 2 on, not those from position 6 on. *)
Theorem C1_terminator_tail (ids : gset Z) :
  two_section_lines !! 5%nat = Some (lit "99999")
  /\ is_terminator (lit "99999")
  /\ data_position two_section_lines 5
  /\ index two_section_lines (lit "99999") = Ok 1%nat
  /\ process_lines ids two_section_lines
     = Ok (take 6 two_section_lines ++ drop 2 two_section_lines)
  /\ take 6 two_section_lines ++ drop 2 two_section_lines
     <> take 6 two_section_lines ++ drop 6 two_section_lines.
Proof.
  split; [reflexivity|]. split; [reflexivity|]. split.
  { exists 2%nat, (lit "DCIR"). repeat split. lia. }
  split; [reflexivity|]. split; [reflexivity|]. discriminate.
Qed.

(** C2 at the two-section file: the input has 7 lines, the output has 11,
    and output line 6 is input line 2. *)
Theorem C2_line_count (ids : gset Z) :
  exists out,
    process_lines ids (splitlines two_section_file) = Ok out
    /\ process_text_file two_section_file ids = Ok (join [LF] out)
    /\ length (splitlines two_section_file) = 7%nat
    /\ length out = 11%nat
    /\ length (splitlines (join [LF] out)) = 11%nat
    /\ out !! 6%nat = Some (lit "DCIR")
    /\ splitlines two_section_file !! 6%nat = Some (lit "FIM")
    /\ splitlines two_section_file !! 2%nat = Some (lit "DCIR").
Proof.
  eexists. split; [reflexivity|]. repeat split.
Qed.

(** C3, as the code has it: a bar field that fails to parse leaves its bar
    number at 0, and 0 takes part in the match decision like any number.
    A data line both of whose bar fields fail to parse matches exactly when
    0 is a target id; it is emitted unchanged when 0 is not one. *)
Theorem C3_failed_bar_counts_as_zero (ids : gset Z) (lines : list str)
    (st : state) (out : list str) (line : str) :
  data_state st -> ~ is_terminator line ->
  (42 <= length line)%nat -> line !! 16%nat = Some "T"%char ->
  (py_int (strip (slice 0 6 line)) = Raise ValueError ->
   forall bar2,
     try_except_ValueError (py_int (strip (slice 7 12 line))) 0 = Ok bar2 ->
     bar_match ids line
     = Ok (bool_decide (0 ∈ ids) || bool_decide (bar2 ∈ ids)))
  /\ (py_int (strip (slice 7 12 line)) = Raise ValueError ->
      forall bar1,
        try_except_ValueError (py_int (strip (slice 0 6 line))) 0 = Ok bar1 ->
        bar_match ids line
        = Ok (bool_decide (bar1 ∈ ids) || bool_decide (0 ∈ ids)))
  /\ (py_int (strip (slice 0 6 line)) = Raise ValueError ->
      py_int (strip (slice 7 12 line)) = Raise ValueError ->
      bar_match ids line = Ok (bool_decide (0 ∈ ids))
      /\ (0 ∉ ids ->
          body ids lines st out line = Ok (Next st (out ++ [line])))).
Proof.
  intros Hst Hterm Hlen HT. split; [|split].
  - intros H1 bar2 H2. unfold bar_match. rewrite H1, H2. reflexivity.
  - intros H2 bar1 H1. unfold bar_match. rewrite H1, H2. reflexivity.
  - intros H1 H2.
    assert (bar_match ids line = Ok (bool_decide (0 ∈ ids))) as Hm.
    { unfold bar_match. rewrite H1, H2. cbn [try_except_ValueError bind].
      rewrite orb_diag. reflexivity. }
    split; [exact Hm|]. intros H0.
    destruct (body_data_spec ids lines st out line Hst Hterm)
      as (o & Hb & _ & _ & [[-> _] | ((_ & _ & Hq) & _)]); [exact Hb|].
    rewrite Hm in Hq. injection Hq as Hq.
    apply bool_decide_eq_true in Hq. contradiction.
Qed.

(** With target ids {100} the line with two blank bar fields does not
    match and is copied. *)
Lemma C3_failed_bar_counts_as_zero_witness :
  bar_match {[100]} sample_line_no_bars = Ok false
  /\ body {[100]} [sample_line_no_bars] after_header [] sample_line_no_bars
     = Ok (Next after_header ([] ++ [sample_line_no_bars])).
Proof.
  destruct (C3_failed_bar_counts_as_zero {[100]} [sample_line_no_bars]
              after_header [] sample_line_no_bars) as (_ & _ & H).
  - in_data_state.
  - not_prefix.
  - simpl; lia.
  - reflexivity.
  - destruct H as [Hm Hb]; [by_evaluation | by_evaluation |].
    split; [exact Hm|]. apply Hb.
    intros H0. apply elem_of_singleton in H0. discriminate H0.
Defined.

(** C3 as it is stated fails when 0 is a target id: a line both of whose
    bar fields are blank matches then, and its window A is rewritten. *)
Lemma C3_counterexample :
  (42 <= length sample_line_no_bars)%nat
  /\ sample_line_no_bars !! 16%nat = Some "T"%char
  /\ py_int (strip (slice 0 6 sample_line_no_bars)) = Raise ValueError
  /\ py_int (strip (slice 7 12 sample_line_no_bars)) = Raise ValueError
  /\ bar_match {[0]} sample_line_no_bars = Ok true
  /\ body {[0]} [sample_line_no_bars] after_header [] sample_line_no_bars
     = Ok (Next after_header
             [lit "               XT10.000   500  1.25   100Z"])
  /\ lit "               XT10.000   500  1.25   100Z" <> sample_line_no_bars.
Proof.
  split; [simpl; lia|]. split; [reflexivity|].
  split; [vm_compute; reflexivity|]. split; [vm_compute; reflexivity|].
  split; [vm_compute; reflexivity|]. split; [vm_compute; reflexivity|].
  discriminate.
Qed.

(** C4: in a matched data line with blank window A whose window C,
    right-trimmed, parses as the number [v], window A of the output line is
    the first 6 characters of [v / 50.0] formatted with 6 digits after the
    decimal point, padded on the right with spaces to width 6; and window B
    is related to window D by the same rule. *)
Theorem C4_formatting (ids : gset Z) (lines : list str) (st : state)
    (out : list str) (line : str) :
  data_state st -> ~ is_terminator line -> qualifies ids line ->
  exists o, body ids lines st out line = Ok (Next st (out ++ [o]))
    /\ (forall v, is_blank (slice 17 23 line) = true ->
          py_float (rtrim (slice 23 29 line)) = Ok v ->
          slice 17 23 o = ljust 6 (take 6 (format_6f (div_50 v))))
    /\ (forall v, is_blank (slice 29 35 line) = true ->
          py_float (rtrim (slice 35 41 line)) = Ok v ->
          slice 29 35 o = ljust 6 (take 6 (format_6f (div_50 v)))).
Proof.
  intros Hst Ht Hq.
  destruct (body_data_spec ids lines st out line Hst Ht)
    as (o & Hb & _ & _ & [[_ Hn] | (_ & Ha & Hw)]); [contradiction|].
  exists o. split; [exact Hb|]. split.
  - intros v Hblank Hv. rewrite Ha. apply new_window_parsed; assumption.
  - intros v Hblank Hv. rewrite Hw. apply new_window_parsed; assumption.
Qed.

(** On [sample_line_blank_b], [500 / 50.0] and [100 / 50.0] are written. *)
Lemma C4_formatting_witness :
  exists o,
    body {[100]} [sample_line_blank_b] after_header [] sample_line_blank_b
    = Ok (Next after_header ([] ++ [o]))
    /\ slice 17 23 o = lit "10.000"
    /\ slice 29 35 o = lit "2.0000".
Proof.
  destruct (C4_formatting {[100]} [sample_line_blank_b] after_header []
              sample_line_blank_b) as (o & Hb & HA & HB).
  - in_data_state.
  - not_prefix.
  - split; [simpl; lia|]. split; [reflexivity | by_evaluation].
  - exists o. split; [exact Hb|]. split.
    + rewrite (HA _ eq_refl ltac:(by_evaluation)). by_evaluation.
    + rewrite (HB _ eq_refl ltac:(by_evaluation)). by_evaluation.
Defined.

(** C5 at the two-section file: the file has 7 lines and none of them
    qualifies for rewriting, so each should come back as it is at its own
    position. Input line 6 is "FIM"; output line 6 is "DCIR", which differs
    from it at offset 0, outside both windows: after the terminator at
    line 5 the loop appends the lines from position 2 on. The lines up to
    the terminator are at their positions, unchanged. *)
Theorem C5_frame_two_section (ids : gset Z) :
  exists out,
    process_lines ids two_section_lines = Ok out
    /\ Forall (fun l => ~ qualifies ids l) two_section_lines
    /\ take 6 out = take 6 two_section_lines
    /\ two_section_lines !! 6%nat = Some (lit "FIM")
    /\ out !! 6%nat = Some (lit "DCIR")
    /\ ~ in_window_a 0 /\ ~ in_window_b 0
    /\ lit "DCIR" !! 0%nat = Some "D"%char
    /\ lit "FIM" !! 0%nat = Some "F"%char.
Proof.
  eexists. split; [reflexivity|]. split.
  { repeat constructor; intros (Hlen & _); simpl in Hlen; lia. }
  split; [reflexivity|]. split; [reflexivity|]. split; [reflexivity|].
  split; [unfold in_window_a; lia|]. split; [unfold in_window_b; lia|].
  split; reflexivity.
Qed.

(** C6: a window A that is not blank is kept, whether the line matches or
    not; window B of a matched line is recomputed all the same when it is
    blank and window D parses; and a second pass over the output line, with
    any target set, keeps every window that the first pass recomputed. *)
Theorem C6_blank_precondition (ids : gset Z) (lines : list str) (st : state)
    (out : list str) (line : str) :
  data_state st -> ~ is_terminator line ->
  exists o, body ids lines st out line = Ok (Next st (out ++ [o]))
    /\ (is_blank (slice 17 23 line) = false ->
        slice 17 23 o = slice 17 23 line)
    /\ (qualifies ids line -> is_blank (slice 29 35 line) = true ->
        forall v, py_float (rtrim (slice 35 41 line)) = Ok v ->
          slice 29 35 o = ljust 6 (take 6 (format_6f (div_50 v))))
    /\ (forall ids' lines' st' out',
        exists st'' o',
          body ids' lines' st' out' o = Ok (Next st'' (out' ++ [o']))
          /\ (slice 17 23 o <> slice 17 23 line ->
              slice 17 23 o' = slice 17 23 o)
          /\ (slice 29 35 o <> slice 29 35 line ->
              slice 29 35 o' = slice 29 35 o)).
Proof.
  intros Hst Ht.
  destruct (body_data_spec ids lines st out line Hst Ht)
    as (o & Hb & Hlen & Hk & Hc).
  exists o. split; [exact Hb|]. split; [|split].
  - intros Hblank. destruct Hc as [[-> _] | (_ & Ha & _)]; [reflexivity|].
    rewrite Ha. apply new_window_not_blank. exact Hblank.
  - intros Hq Hblank v Hv. destruct Hc as [[_ Hn] | (_ & _ & Hw)];
      [contradiction|].
    rewrite Hw. apply new_window_parsed; assumption.
  - intros ids' lines' st' out'.
    destruct (body_not_terminator ids' lines' st' out' o
                (framed_not_terminator line o Hk Ht))
      as (st'' & o' & Hb' & [-> | [Hst' Hd']]);
      [exists st'', o; split; [exact Hb' | split; reflexivity]|].
    exists st'', o'. split; [exact Hb'|].
    destruct (data_line_spec ids' o) as (o2 & Ho2 & _ & _ & Hc').
    rewrite Hd' in Ho2. injection Ho2 as <-.
    destruct Hc as [[-> _] | (_ & Ha & Hw)]; [split; congruence|].
    destruct Hc' as [[-> _] | (_ & Ha' & Hw')]; [split; reflexivity|].
    split.
    + intros Hne. rewrite Ha'. apply new_window_not_blank.
      rewrite Ha in *. apply new_window_changed. exact Hne.
    + intros Hne. rewrite Hw'. apply new_window_not_blank.
      rewrite Hw in *. apply new_window_changed. exact Hne.
Qed.

(** On [sample_line_a_set] window A keeps " 3.000", window B gets
    "2.0000", and a second pass keeps window B. *)
Lemma C6_blank_precondition_witness :
  exists o,
    body {[100]} [sample_line_a_set] after_header [] sample_line_a_set
    = Ok (Next after_header ([] ++ [o]))
    /\ slice 17 23 o = lit " 3.000"
    /\ slice 29 35 o = lit "2.0000"
    /\ (forall ids' lines' st' out',
        exists st'' o',
          body ids' lines' st' out' o = Ok (Next st'' (out' ++ [o']))
          /\ slice 29 35 o' = lit "2.0000").
Proof.
  destruct (C6_blank_precondition {[100]} [sample_line_a_set] after_header []
              sample_line_a_set) as (o & Hb & HA & HB & Hsecond).
  - in_data_state.
  - not_prefix.
  - assert (slice 29 35 o = lit "2.0000") as Hnew.
    { rewrite (HB ltac:(split; [simpl; lia|];
                        split; [reflexivity | by_evaluation])
                  eq_refl _ ltac:(by_evaluation)).
      by_evaluation. }
    exists o. split; [exact Hb|]. split; [apply HA; reflexivity|].
    split; [exact Hnew|].
    intros ids' lines' st' out'.
    destruct (Hsecond ids' lines' st' out') as (st'' & o' & Hb' & _ & Hkeep).
    exists st'', o'. split; [exact Hb'|].
    rewrite Hkeep; [exact Hnew|]. rewrite Hnew. discriminate.
Defined.

(** C7, as the code has it: with target ids {100}, a data-state line of
    length at least 42 with "100   " at offsets 0 to 5, 'T' at offset 16,
    a blank window A and "   500" in window C gets "10.000" in window A,
    and every character outside windows A and B is kept. Window B is
    recomputed by the same rule when it is blank and window D parses;
    otherwise every character outside window A is kept. *)
Theorem C7_scenario (lines : list str) (st : state) (out : list str)
    (line : str) :
  data_state st -> (42 <= length line)%nat ->
  slice 0 6 line = lit "100   " -> line !! 16%nat = Some "T"%char ->
  slice 17 23 line = lit "      " -> slice 23 29 line = lit "   500" ->
  exists o, body {[100]} lines st out line = Ok (Next st (out ++ [o]))
    /\ slice 17 23 o = lit "10.000"
    /\ length o = length line
    /\ (forall k, ~ in_window_a k -> ~ in_window_b k -> o !! k = line !! k)
    /\ slice 29 35 o = new_window (slice 29 35 line) (slice 35 41 line)
    /\ (is_blank (slice 29 35 line) = false
        \/ py_float (rtrim (slice 35 41 line)) = Raise ValueError ->
        forall k, ~ in_window_a k -> o !! k = line !! k).
Proof.
  intros Hst Hlen Hbar HT Ha Hc.
  assert (~ is_terminator line) as Hterm.
  { unfold is_terminator. pose proof (lookup_slice 0 6 line 0) as H0.
    rewrite Hbar in H0. simpl in H0.
    destruct line as [|c l]; [discriminate|]. simpl in H0.
    injection H0 as <-. simpl. discriminate. }
  assert (qualifies {[100]} line) as Hq.
  { split; [exact Hlen|]. split; [exact HT|].
    unfold bar_match. rewrite Hbar.
    assert (py_int (strip (lit "100   ")) = Ok 100) as ->
      by (vm_compute; reflexivity).
    cbn [try_except_ValueError bind].
    destruct (try_py_int_ok (strip (slice 7 12 line)) 0) as [n2 ->].
    cbn [bind]. reflexivity. }
  destruct (body_data_spec {[100]} lines st out line Hst Hterm)
    as (o & Hb & Hl & Hk & [[_ Hn] | (_ & Hwa & Hwb)]); [contradiction|].
  exists o. split; [exact Hb|]. split.
  { rewrite Hwa, Ha, Hc. vm_compute. reflexivity. }
  split; [exact Hl|]. split; [exact Hk|]. split; [exact Hwb|].
  intros Hkeep k Hka.
  destruct (decide (in_window_b k)) as [Hkb|Hkb]; [|apply Hk; assumption].
  assert (slice 29 35 o = slice 29 35 line) as Heq.
  { rewrite Hwb. unfold new_window, recomputed.
    destruct Hkeep as [-> | ->]; [reflexivity|].
    destruct (is_blank _); reflexivity. }
  unfold in_window_b in Hkb.
  pose proof (lookup_slice 29 35 o (k - 29)) as H1.
  pose proof (lookup_slice 29 35 line (k - 29)) as H2.
  rewrite Heq, H2 in H1.
  destruct (decide (k - 29 < 35 - 29)%nat); [|lia].
  replace (29 + (k - 29))%nat with k in H1 by lia. congruence.
Qed.

(** On [sample_line], whose window B is not blank, only window A changes. *)
Lemma C7_scenario_witness :
  exists o, body {[100]} [sample_line] after_header [] sample_line
            = Ok (Next after_header ([] ++ [o]))
    /\ slice 17 23 o = lit "10.000"
    /\ length o = length sample_line
    /\ forall k, ~ in_window_a k -> o !! k = sample_line !! k.
Proof.
  destruct (C7_scenario [sample_line] after_header [] sample_line)
    as (o & Hb & HA & Hl & _ & _ & Hkeep).
  - in_data_state.
  - simpl; lia.
  - reflexivity.
  - reflexivity.
  - reflexivity.
  - reflexivity.
  - exists o. split; [exact Hb|]. split; [exact HA|]. split; [exact Hl|].
    apply Hkeep. left. reflexivity.
Defined.

(** C7 as it is stated fails on a line whose window B is blank and whose
    window D parses: the character at offset 29, outside window A, is
    rewritten too. *)
Lemma C7_counterexample :
  (42 <= length sample_line_blank_b)%nat
  /\ slice 0 6 sample_line_blank_b = lit "100   "
  /\ sample_line_blank_b !! 16%nat = Some "T"%char
  /\ slice 17 23 sample_line_blank_b = lit "      "
  /\ slice 23 29 sample_line_blank_b = lit "   500"
  /\ exists o,
       body {[100]} [sample_line_blank_b] after_header []
            sample_line_blank_b
       = Ok (Next after_header [o])
       /\ slice 17 23 o = lit "10.000"
       /\ ~ in_window_a 29
       /\ o !! 29%nat = Some "2"%char
       /\ sample_line_blank_b !! 29%nat = Some " "%char.
Proof.
  split; [simpl; lia|]. do 4 (split; [reflexivity|]).
  exists (lit "100      7     XT10.000   5002.0000   100Z").
  split; [vm_compute; reflexivity|]. split; [reflexivity|].
  split; [unfold in_window_a; lia|]. split; reflexivity.
Qed.

(** C8: when no line of the input starts with "DCIR", the transform returns
    the input line for line: the list of output lines is the list of input
    lines, and the result is their join. *)
Theorem C8_no_header_identity (input_text : str) (ids : gset Z) :
  Forall (fun l => ~ is_header l) (splitlines input_text) ->
  process_lines ids (splitlines input_text) = Ok (splitlines input_text)
  /\ process_text_file input_text ids
     = Ok (join [LF] (splitlines input_text)).
Proof.
  intros Hno.
  assert (process_lines ids (splitlines input_text)
          = Ok (splitlines input_text)) as Hp.
  { unfold process_lines.
    pose proof (for_lines_preheader ids (splitlines input_text)
                  (splitlines input_text) [] init_state [] eq_refl Hno) as H.
    rewrite app_nil_r in H. exact H. }
  split; [exact Hp|]. unfold process_text_file. rewrite Hp. reflexivity.
Qed.

Lemma C8_no_header_identity_witness :
  process_lines {[100]}
    (splitlines (lit "DBAR" ++ [LF] ++ sample_line ++ [LF] ++ lit "99999"))
  = Ok (splitlines (lit "DBAR" ++ [LF] ++ sample_line ++ [LF] ++ lit "99999"))
  /\ process_text_file
       (lit "DBAR" ++ [LF] ++ sample_line ++ [LF] ++ lit "99999") {[100]}
     = Ok (join [LF]
             (splitlines
                (lit "DBAR" ++ [LF] ++ sample_line ++ [LF] ++ lit "99999"))).
Proof.
  apply C8_no_header_identity.
  repeat constructor; unfold is_header; vm_compute; discriminate.
Defined.

(** C9: for every input text and every set of integers the transform
    returns a string: no exception of the parsers, of the indexing or of
    [lines.index] leaves it. *)
Theorem C9_total (input_text : str) (ids : gset Z) :
  exists output, process_text_file input_text ids = Ok output.
Proof.
  unfold process_text_file, process_lines.
  destruct (for_lines_spec ids (splitlines input_text) [] init_state [])
    as (emitted & mid & n & H & _).
  cbn [app] in H. rewrite H. cbn [bind]. eauto.
Qed.

(** C10: the terminator is recognised in data state only. Whatever the
    lines before the header marker and the two lines after it hold, also
    a "99999", they are copied, and the loop goes on in data state with all
    the lines that follow: each data line [ds] up to the next terminator
    is replaced by its [data_line], and the loop is still running, in data
    state, on the lines [rest] after them. When these data lines end the
    file, the output is the copied lines followed by the rewritten data
    lines. *)
Theorem C10_terminator_only_in_data_state (ids : gset Z)
    (pre : list str) (d h1 h2 : str) (ds rest : list str) :
  Forall (fun x => ~ is_header x) pre -> is_header d ->
  Forall (fun l => ~ is_terminator l) ds ->
  exists ds',
    Forall2 (fun l o => data_line ids l = Ok o) ds ds'
    /\ (exists st, data_state st
         /\ process_lines ids (pre ++ d :: h1 :: h2 :: ds ++ rest)
            = for_lines ids (pre ++ d :: h1 :: h2 :: ds ++ rest) st
                (pre ++ [d; h1; h2] ++ ds') rest)
    /\ process_lines ids (pre ++ d :: h1 :: h2 :: ds)
       = Ok (pre ++ [d; h1; h2] ++ ds').
Proof.
  intros Hpre Hd Hds.
  assert (forall tail,
    exists st, data_state st
      /\ forall ds', (forall lines out rest0,
            for_lines ids lines st out (ds ++ rest0)
            = for_lines ids lines st (out ++ ds') rest0) ->
         process_lines ids (pre ++ d :: h1 :: h2 :: ds ++ tail)
         = for_lines ids (pre ++ d :: h1 :: h2 :: ds ++ tail) st
             (pre ++ [d; h1; h2] ++ ds') tail) as Hrun.
  { intros tail. unfold process_lines.
    rewrite for_lines_preheader by (reflexivity || exact Hpre).
    destruct (for_lines_header ids (pre ++ d :: h1 :: h2 :: ds ++ tail)
                (ds ++ tail) init_state ([] ++ pre) d h1 h2 eq_refl Hd)
      as (st & Hst & ->).
    exists st. split; [exact Hst|]. intros ds' Hdata.
    rewrite Hdata. cbn [app]. rewrite <- !app_assoc. reflexivity. }
  assert (exists ds',
    Forall2 (fun l o => data_line ids l = Ok o) ds ds'
    /\ forall st, data_state st -> forall lines out rest0,
         for_lines ids lines st out (ds ++ rest0)
         = for_lines ids lines st (out ++ ds') rest0) as (ds' & Hall & Hdata).
  { clear Hrun. induction ds as [|l ds IH].
    - exists []. split; [constructor|]. intros st _ lines out rest0.
      rewrite app_nil_r. reflexivity.
    - apply Forall_cons in Hds as [Hl Hds].
      destruct (IH Hds) as (ds' & Hall & Hdata).
      destruct (data_line_spec ids l) as (o & Ho & _).
      exists (o :: ds'). split; [constructor; assumption|].
      intros st Hst lines out rest0. cbn [app for_lines].
      rewrite body_data by assumption. rewrite Ho. cbn [bind].
      rewrite (Hdata st Hst), <- app_assoc. reflexivity. }
  exists ds'. split; [exact Hall|]. split.
  - destruct (Hrun rest) as (st & Hst & Hp). exists st.
    split; [exact Hst|]. apply Hp. apply Hdata. exact Hst.
  - destruct (Hrun []) as (st & Hst & Hp).
    rewrite app_nil_r in Hp. rewrite (Hp ds' (Hdata st Hst)).
    reflexivity.
Qed.

(** A "99999" above the header marker and one in the header block: the
    member lines after them are all met in data state and rewritten, up to
    the end of the file. *)
Lemma C10_terminator_only_in_data_state_witness :
  process_lines {[100]}
    ([lit "99999"] ++ lit "DCIR" :: lit "99999" :: lit "(" ::
     [sample_line; lit "FIM"; sample_line_blank_b])
  = Ok ([lit "99999"] ++ [lit "DCIR"; lit "99999"; lit "("] ++
        [lit "100      7     XT10.000   500  1.25   100Z"; lit "FIM";
         lit "100      7     XT10.000   5002.0000   100Z"]).
Proof.
  destruct (C10_terminator_only_in_data_state {[100]} [lit "99999"]
              (lit "DCIR") (lit "99999") (lit "(")
              [sample_line; lit "FIM"; sample_line_blank_b] [])
    as (ds' & Hall & _ & Hp).
  - repeat constructor; not_prefix.
  - by_evaluation.
  - repeat constructor; not_prefix.
  - rewrite Hp. do 2 f_equal.
    apply Forall2_cons_inv_l in Hall as (o1 & r1 & H1 & Hall & ->).
    apply Forall2_cons_inv_l in Hall as (o2 & r2 & H2 & Hall & ->).
    apply Forall2_cons_inv_l in Hall as (o3 & r3 & H3 & Hall & ->).
    apply Forall2_nil_inv_l in Hall as ->.
    rewrite data_line_sample in H1. rewrite data_line_sample_blank_b in H3.
    assert (data_line {[100]} (lit "FIM") = Ok (lit "FIM")) as H2'
      by reflexivity.
    congruence.
Defined.

(** * Further properties *)

(** ** The bar list *)

Lemma entry_dec (x : str) : valid_entry x \/ invalid_entry x.
Proof.
  unfold valid_entry, invalid_entry.
  destruct (truthy (strip x)); [|left; discriminate].
  destruct (py_int (strip x)) as [n|e] eqn:E; [left; eauto|].
  apply py_int_raises in E as ->. right. auto.
Qed.

Lemma entries_dec (pieces : list str) :
  Forall valid_entry pieces \/ Exists invalid_entry pieces.
Proof.
  induction pieces as [|x pieces [IH|IH]].
  - left. constructor.
  - destruct (entry_dec x) as [Hx|Hx].
    + left. constructor; assumption.
    + right. apply Exists_cons_hd. exact Hx.
  - right. apply Exists_cons_tl. exact IH.
Qed.

Lemma py_int_number_truthy (x : str) (n : Z) :
  py_int x = Ok n -> truthy x = true.
Proof. destruct x; [discriminate | reflexivity]. Qed.

Lemma bar_set_ok (pieces : list str) :
  forall acc : gset Z,
    Forall valid_entry pieces ->
    exists numbers, bar_set acc pieces = Ok numbers
      /\ forall n, n ∈ numbers <->
           n ∈ acc \/ exists x, x ∈ pieces /\ py_int (strip x) = Ok n.
Proof.
  induction pieces as [|x pieces IH]; intros acc Hall.
  - exists acc. split; [reflexivity|]. intros n. split; [auto|].
    intros [H | (x & Hx & _)]; [exact H|]. inversion Hx.
  - apply Forall_cons in Hall as [Hx Hall]. cbn [bar_set].
    destruct (truthy (strip x)) eqn:Ht.
    + destruct (Hx Ht) as [m Hm]. rewrite Hm. cbn [bind].
      destruct (IH (acc ∪ {[m]}) Hall) as (numbers & -> & Hn).
      exists numbers. split; [reflexivity|]. intros n. rewrite Hn.
      rewrite elem_of_union, elem_of_singleton. split.
      * intros [[H | ->] | (y & Hy & Hyn)]; [left; exact H | right ..].
        -- exists x. split; [left | exact Hm].
        -- exists y. split; [right; exact Hy | exact Hyn].
      * intros [H | (y & Hy & Hyn)]; [left; left; exact H|].
        apply elem_of_cons in Hy as [-> | Hy].
        -- left. right. congruence.
        -- right. exists y. auto.
    + destruct (IH acc Hall) as (numbers & -> & Hn).
      exists numbers. split; [reflexivity|]. intros n. rewrite Hn.
      split.
      * intros [H | (y & Hy & Hyn)]; [left; exact H|].
        right. exists y. split; [right; exact Hy | exact Hyn].
      * intros [H | (y & Hy & Hyn)]; [left; exact H|].
        apply elem_of_cons in Hy as [-> | Hy].
        -- apply py_int_number_truthy in Hyn. congruence.
        -- right. exists y. auto.
Qed.

Lemma bar_set_fail (pieces : list str) :
  forall acc : gset Z,
    Exists invalid_entry pieces -> bar_set acc pieces = Raise ValueError.
Proof.
  induction pieces as [|x pieces IH]; intros acc Hex; [inversion Hex|].
  cbn [bar_set]. apply Exists_cons in Hex as [[Ht Hx] | Hex].
  - rewrite Ht, Hx. reflexivity.
  - destruct (truthy (strip x)); [|apply IH; exact Hex].
    destruct (py_int (strip x)) as [m|e] eqn:E; cbn [bind].
    + apply IH. exact Hex.
    + apply py_int_raises in E as ->. reflexivity.
Qed.

Lemma split_from_app (sep : ascii) (a b : str) :
  forall cur : str,
    split_from sep cur (a ++ sep :: b)
    = split_from sep cur a ++ split_from sep [] b.
Proof.
  induction a as [|c a IH]; intros cur; cbn [app split_from].
  - assert (char_eqb sep sep = true) as -> by (apply char_eqb_eq; reflexivity).
    reflexivity.
  - destruct (char_eqb c sep); [|apply IH].
    rewrite IH. reflexivity.
Qed.

(** X1: The bar list, when every entry is blank or a number: the set holds
    exactly the numbers of the entries, and no error is shown. *)
Theorem bar_list_numbers (bar_list_input : str) :
  Forall valid_entry (split ","%char bar_list_input) ->
  exists numbers,
    read_bar_numbers bar_list_input
    = Ok {| bar_numbers := numbers; error_shown := false |}
    /\ forall n, n ∈ numbers <->
         exists x, x ∈ split ","%char bar_list_input /\ py_int (strip x) = Ok n.
Proof.
  intros Hall. unfold read_bar_numbers.
  destruct (bar_set_ok _ ∅ Hall) as (numbers & Hs & Hn).
  destruct (truthy bar_list_input) eqn:Ht.
  - rewrite Hs. exists numbers. split; [reflexivity|]. intros n.
    rewrite Hn. split; [intros [H|H]; [set_solver | exact H] | auto].
  - destruct bar_list_input; [|discriminate]. exists ∅.
    split; [reflexivity|]. intros n. split; [set_solver|].
    intros (x & Hx & Hp). apply list_elem_of_singleton in Hx as ->.
    discriminate Hp.
Qed.

(** X2: One entry that is neither blank nor a number empties the whole set,
    whatever the other entries are, and the error is shown. *)
Theorem bar_list_all_or_nothing (bar_list_input : str) :
  Exists invalid_entry (split ","%char bar_list_input) ->
  read_bar_numbers bar_list_input
  = Ok {| bar_numbers := ∅; error_shown := true |}.
Proof.
  intros Hex. unfold read_bar_numbers.
  destruct bar_list_input as [|c r].
  - apply Exists_cons in Hex as [[Ht _] | Hex]; [discriminate | inversion Hex].
  - cbn [truthy]. rewrite (bar_set_fail _ ∅ Hex). reflexivity.
Qed.

(** X3: The order of the entries does not matter. *)
Theorem bar_list_order (a b : str) :
  read_bar_numbers (a ++ ","%char :: b) = read_bar_numbers (b ++ ","%char :: a).
Proof.
  assert (forall u v : str, truthy (u ++ ","%char :: v) = true) as Ht
    by (intros [|? ?] v; reflexivity).
  unfold read_bar_numbers. rewrite !Ht. unfold split.
  rewrite !split_from_app.
  destruct (entries_dec (split_from ","%char [] a ++ split_from ","%char [] b))
    as [Hall | Hex].
  - assert (Forall valid_entry (split_from ","%char [] b ++ split_from ","%char [] a))
      as Hall'.
    { apply Forall_app in Hall as [? ?]. apply Forall_app. auto. }
    destruct (bar_set_ok _ ∅ Hall) as (s1 & -> & H1).
    destruct (bar_set_ok _ ∅ Hall') as (s2 & -> & H2).
    do 2 f_equal. apply set_eq. intros n. rewrite H1, H2.
    split; (intros [H | (x & Hx & Hp)]; [left; exact H|]; right; exists x;
            split; [|exact Hp]; apply elem_of_app;
            apply elem_of_app in Hx as [?|?]; auto).
  - assert (Exists invalid_entry (split_from ","%char [] b ++ split_from ","%char [] a))
      as Hex'.
    { apply Exists_app in Hex as [?|?]; apply Exists_app; auto. }
    rewrite (bar_set_fail _ ∅ Hex), (bar_set_fail _ ∅ Hex'). reflexivity.
Qed.

(** ** The loop without the tail of [lines.index] *)

Lemma slice_eq_lookup (a b : nat) (l1 l2 : str) (k : nat) :
  slice a b l1 = slice a b l2 -> (a <= k < b)%nat -> l1 !! k = l2 !! k.
Proof.
  intros Heq Hk.
  pose proof (lookup_slice a b l1 (k - a)) as H1.
  pose proof (lookup_slice a b l2 (k - a)) as H2.
  rewrite Heq, H2 in H1.
  destruct (decide (k - a < b - a)%nat); [|lia].
  replace (a + (k - a))%nat with k in H1 by lia. congruence.
Qed.

Lemma new_window_idem (window src : str) :
  new_window (new_window window src) src = new_window window src.
Proof.
  destruct (List.list_eq_dec ascii_dec (new_window window src) window)
    as [Heq|Hne]; [rewrite Heq; exact Heq|].
  apply new_window_not_blank, new_window_changed. exact Hne.
Qed.

Lemma bar_match_ext (ids : gset Z) (a b : str) :
  (forall k, (k < 12)%nat -> a !! k = b !! k) ->
  bar_match ids a = bar_match ids b.
Proof.
  intros H. unfold bar_match.
  rewrite (slice_ext 0 6 a b) by (intros; apply H; lia).
  rewrite (slice_ext 7 12 a b) by (intros; apply H; lia).
  reflexivity.
Qed.

Lemma outside_windows (k : nat) :
  (k < 17)%nat \/ (23 <= k < 29)%nat \/ (35 <= k)%nat ->
  ~ in_window_a k /\ ~ in_window_b k.
Proof. unfold in_window_a, in_window_b. lia. Qed.

(** A second [data_line] with the same target ids changes nothing. *)
Lemma data_line_idem (ids : gset Z) (line o : str) :
  data_line ids line = Ok o -> data_line ids o = Ok o.
Proof.
  intros Ho.
  destruct (data_line_spec ids line) as (o1 & Ho1 & Hl & Hk & Hc).
  rewrite Ho in Ho1. injection Ho1 as <-.
  destruct Hc as [[-> _] | ((Hlen & HT & Hm) & Ha & Hb)]; [exact Ho|].
  assert (forall k, (k < 17)%nat \/ (23 <= k < 29)%nat \/ (35 <= k)%nat ->
                    o !! k = line !! k) as Hout.
  { intros k Hk'. apply outside_windows in Hk' as [? ?]. apply Hk; assumption. }
  assert (qualifies ids o) as Hq.
  { split; [lia|]. split.
    - rewrite Hout by lia. exact HT.
    - rewrite (bar_match_ext ids o line); [exact Hm|].
      intros k Hk'. apply Hout. lia. }
  rewrite (data_line_qualifies _ _ Hq).
  destruct (rewrite_fields_spec o) as (o2 & Ho2 & Hl2 & Ha2 & Hb2 & Hk2);
    [lia|].
  rewrite Ho2. f_equal. apply list_eq. intros k.
  assert (slice 23 29 o = slice 23 29 line) as Hc1
    by (apply slice_ext; intros; apply Hout; lia).
  assert (slice 35 41 o = slice 35 41 line) as Hd1
    by (apply slice_ext; intros; apply Hout; lia).
  rewrite Ha, Hc1, new_window_idem, <- Ha in Ha2.
  rewrite Hb, Hd1, new_window_idem, <- Hb in Hb2.
  destruct (decide (in_window_a k)) as [Hka|Hka];
    [apply (slice_eq_lookup 17 23); assumption|].
  destruct (decide (in_window_b k)) as [Hkb|Hkb];
    [apply (slice_eq_lookup 29 35); assumption|].
  apply Hk2; assumption.
Qed.

(** What one iteration that goes on has done. *)
Lemma body_next_inv (ids : gset Z) (st st' : state) (line o : str) :
  (forall lines out, body ids lines st out line = Ok (Next st' (out ++ [o])))
  -> (o = line /\ ~ data_state st)
     \/ (data_state st /\ ~ is_terminator line /\ st' = st
         /\ data_line ids line = Ok o).
Proof.
  intros H. specialize (H [] []). unfold body in H.
  destruct st as [f p h].
  cbn [found_dcir negb header_lines_remaining processing_data] in H.
  destruct f; cbn [negb] in H.
  - destruct (0 <? h) eqn:Hh.
    + left. apply Z.ltb_lt in Hh. split; [|intros [_ Hd]; simpl in Hd; lia].
      inversion H. reflexivity.
    + apply Z.ltb_ge in Hh. right.
      destruct (startswith (lit "99999") line) eqn:Ht; [discriminate H|].
      destruct (data_line ids line) as [o1|e]; [|discriminate H].
      cbn [bind] in H. inversion H. subst.
      split; [split; [reflexivity | exact Hh]|].
      split; [unfold is_terminator; congruence|]. auto.
  - left. split; [|intros [Hf _]; discriminate Hf].
    destruct (startswith (lit "DCIR") line); inversion H; reflexivity.
Qed.

(** Every iteration either goes on, whatever [lines] and [output_lines]
    are, or has met a terminator in data state. *)
Lemma body_step (ids : gset Z) (st : state) (line : str) :
  (data_state st /\ is_terminator line)
  \/ exists st' o, forall lines out,
       body ids lines st out line = Ok (Next st' (out ++ [o])).
Proof.
  unfold body. destruct st as [f p h].
  cbn [found_dcir negb header_lines_remaining processing_data].
  destruct f; cbn [negb].
  - destruct (0 <? h) eqn:Hh; [right; eexists _, line; reflexivity|].
    apply Z.ltb_ge in Hh.
    destruct (startswith (lit "99999") line) eqn:Ht.
    + left. split; [split; [reflexivity | exact Hh] | exact Ht].
    + right. destruct (data_line_spec ids line) as (o & -> & _).
      eexists _, o. reflexivity.
  - right. destruct (startswith (lit "DCIR") line);
      eexists _, line; reflexivity.
Qed.

Lemma run_total (ids : gset Z) (rest : list str) :
  forall st, exists outs, run ids st rest outs.
Proof.
  induction rest as [|line rest IH]; intros st.
  - exists []. constructor.
  - destruct (body_step ids st line) as [[Hst Ht] | (st' & o & Hb)].
    + exists (line :: rest). apply run_break; assumption.
    + destruct (IH st') as [outs Houts]. exists (o :: outs).
      eapply run_next; eassumption.
Qed.

(** When no terminator line stands twice, the loop computes [run]. *)
Lemma run_for_lines (ids : gset Z) (st : state) (rest outs : list str) :
  run ids st rest outs ->
  forall pre out, terminators_unique (pre ++ rest) ->
    for_lines ids (pre ++ rest) st out rest = Ok (out ++ outs).
Proof.
  induction 1 as [st | st st' line o rest outs Hb _ IH | st line rest Hst Ht];
    intros pre out Hu.
  - simpl. rewrite app_nil_r. reflexivity.
  - cbn [for_lines]. rewrite Hb. cbn [bind].
    specialize (IH (pre ++ [line]) (out ++ [o])).
    rewrite <- !app_assoc in IH. cbn [app] in IH. apply IH. exact Hu.
  - apply terminator_first_occurrence; [exact Hst | exact Ht |].
    intros Hin. apply list_elem_of_lookup in Hin as [j Hj].
    pose proof (lookup_lt_Some _ _ _ Hj) as Hlt.
    assert (j = length pre) as Heq; [|lia].
    apply (Hu j (length pre) line); [| |exact Ht].
    + rewrite lookup_app_l by exact Hlt. exact Hj.
    + rewrite lookup_app_r by lia. rewrite Nat.sub_diag. reflexivity.
Qed.

Lemma run_framed (ids : gset Z) (st : state) (rest outs : list str) :
  run ids st rest outs -> Forall2 (framed ids) rest outs.
Proof.
  induction 1 as [st | st st' line o rest outs Hb _ IH | st line rest Hst Ht].
  - constructor.
  - constructor; [|exact IH].
    destruct (body_next_inv ids st st' line o Hb)
      as [[-> _] | (_ & _ & _ & Hd)]; [apply framed_refl|].
    destruct (data_line_framed ids line) as (o1 & Ho1 & Hfr). congruence.
  - apply Forall2_same_length_lookup. split; [reflexivity|].
    intros i x y Hx Hy. rewrite Hx in Hy. injection Hy as <-.
    apply framed_refl.
Qed.

Lemma run_idem (ids : gset Z) (st : state) (rest outs : list str) :
  run ids st rest outs -> run ids st outs outs.
Proof.
  induction 1 as [st | st st' line o rest outs Hb _ IH | st line rest Hst Ht].
  - constructor.
  - apply run_next with (st' := st'); [|exact IH].
    destruct (body_next_inv ids st st' line o Hb)
      as [[-> _] | (Hst & Ht & -> & Hd)]; [exact Hb|].
    intros lines out.
    destruct (data_line_spec ids line) as (o1 & Ho1 & _ & Hk & _).
    rewrite Hd in Ho1. injection Ho1 as <-.
    rewrite body_data;
      [|exact Hst | apply (framed_not_terminator line o Hk Ht)].
    rewrite (data_line_idem ids line o Hd). reflexivity.
  - apply run_break; assumption.
Qed.

(** A terminator line of the output is the input line at its position. *)
Lemma run_terminators (ids : gset Z) (st : state) (rest outs : list str) :
  run ids st rest outs ->
  forall i t, outs !! i = Some t -> is_terminator t -> rest !! i = Some t.
Proof.
  induction 1 as [st | st st' line o rest outs Hb _ IH | st line rest Hst Ht];
    intros i t Hi Hterm; [discriminate | | exact Hi].
  destruct i as [|i]; [|apply IH; assumption].
  simpl in Hi. injection Hi as ->. simpl. f_equal.
  destruct (body_next_inv ids st st' line t Hb)
    as [[-> _] | (_ & Ht & _ & Hd)]; [reflexivity|].
  destruct (data_line_spec ids line) as (o1 & Ho1 & _ & Hk & _).
  rewrite Hd in Ho1. injection Ho1 as <-.
  exfalso. apply (framed_not_terminator line t Hk Ht). exact Hterm.
Qed.

Lemma run_unchanged (ids : gset Z) (st : state) (rest outs : list str) :
  run ids st rest outs -> Forall (fun l => ~ qualifies ids l) rest ->
  outs = rest.
Proof.
  induction 1 as [st | st st' line o rest outs Hb _ IH | st line rest Hst Ht];
    intros Hno; [reflexivity | | reflexivity].
  apply Forall_cons in Hno as [Hline Hno]. rewrite (IH Hno). f_equal.
  destruct (body_next_inv ids st st' line o Hb)
    as [[-> _] | (_ & _ & _ & Hd)]; [reflexivity|].
  rewrite (data_line_other _ _ Hline) in Hd. congruence.
Qed.

Lemma run_terminators_unique (ids : gset Z) (st : state)
    (rest outs : list str) :
  run ids st rest outs -> terminators_unique rest -> terminators_unique outs.
Proof.
  intros Hrun Hu j m t Hj Hm Ht.
  apply (Hu j m t); [| |exact Ht];
    apply (run_terminators ids st rest outs Hrun); assumption.
Qed.

Lemma process_lines_run (ids : gset Z) (lines : list str) :
  terminators_unique lines ->
  exists out, process_lines ids lines = Ok out /\ run ids init_state lines out.
Proof.
  intros Hu. destruct (run_total ids lines init_state) as [out Hrun].
  exists out. split; [|exact Hrun].
  apply (run_for_lines ids init_state lines out Hrun [] []). exact Hu.
Qed.

(** X4: When no terminator line stands twice in the file, the output has one
    line for each input line, at the same position, with the same length
    and the same characters outside the two windows. *)
Theorem line_for_line (ids : gset Z) (lines : list str) :
  terminators_unique lines ->
  exists out, process_lines ids lines = Ok out
    /\ length out = length lines
    /\ forall i line o, lines !! i = Some line -> out !! i = Some o ->
         framed ids line o.
Proof.
  intros Hu. destruct (process_lines_run ids lines Hu) as (out & Hp & Hrun).
  apply run_framed in Hrun. exists out. split; [exact Hp|]. split.
  - symmetry. eapply Forall2_length. exact Hrun.
  - intros i line o Hl Ho. eapply Forall2_lookup_lr; eassumption.
Qed.

(** X5: When no terminator line stands twice in the file, a second pass with
    the same target ids over the output lines returns them as they are. *)
Theorem process_lines_idempotent (ids : gset Z) (lines out : list str) :
  terminators_unique lines ->
  process_lines ids lines = Ok out ->
  process_lines ids out = Ok out.
Proof.
  intros Hu Hp. destruct (process_lines_run ids lines Hu) as (out1 & Hp1 & Hrun).
  rewrite Hp in Hp1. injection Hp1 as <-.
  apply (run_for_lines ids init_state out out (run_idem _ _ _ _ Hrun) [] []).
  apply (run_terminators_unique ids init_state lines out Hrun Hu).
Qed.

(** X6: A file none of whose lines qualifies for rewriting comes back line for
    line, when no terminator line stands twice in it. *)
Theorem no_target_line_identity (ids : gset Z) (lines : list str) :
  terminators_unique lines ->
  Forall (fun l => ~ qualifies ids l) lines ->
  process_lines ids lines = Ok lines.
Proof.
  intros Hu Hno. destruct (process_lines_run ids lines Hu) as (out & Hp & Hrun).
  rewrite Hp. f_equal. apply (run_unchanged ids init_state lines out Hrun Hno).
Qed.

Lemma bar_match_empty (line : str) : bar_match ∅ line = Ok false.
Proof.
  unfold bar_match.
  destruct (try_py_int_ok (strip (slice 0 6 line)) 0) as [n1 ->].
  destruct (try_py_int_ok (strip (slice 7 12 line)) 0) as [n2 ->].
  reflexivity.
Qed.

(** X7: With a bar list that holds an entry which is no number, the script
    processes the file with the empty set: the content offered is the file
    line for line, nothing rewritten. *)
Theorem invalid_bar_list_disables_rewriting
    (bar_list_input file_contents : str) :
  Exists invalid_entry (split "," bar_list_input) ->
  terminators_unique (splitlines file_contents) ->
  exists bars, read_bar_numbers bar_list_input = Ok bars
    /\ error_shown bars = true
    /\ processed_content file_contents (bar_numbers bars)
       = Some (join [LF] (splitlines file_contents)).
Proof.
  intros Hex Hu. eexists. split; [|split].
  - unfold read_bar_numbers. destruct bar_list_input as [|c r].
    + apply Exists_cons in Hex as [[Ht _] | Hex];
        [discriminate | inversion Hex].
    + cbn [truthy]. rewrite (bar_set_fail _ ∅ Hex). reflexivity.
  - reflexivity.
  - cbn [bar_numbers]. unfold processed_content, process_text_file.
    destruct (process_lines_run ∅ (splitlines file_contents) Hu)
      as (out & Hp & Hrun).
    rewrite Hp. cbn [bind]. do 2 f_equal.
    apply (run_unchanged ∅ init_state _ _ Hrun).
    apply Forall_forall. intros l _ (_ & _ & Hm).
    rewrite bar_match_empty in Hm. discriminate Hm.
Qed.

(** X8: In data state, the line appended for a line is appended for itself
    again: a second pass with the same target ids changes no data line. *)
Theorem data_line_second_pass (ids : gset Z) (st : state) (line : str) :
  data_state st -> ~ is_terminator line ->
  exists o,
    (forall lines out,
        body ids lines st out line = Ok (Next st (out ++ [o])))
    /\ (forall lines out,
        body ids lines st out o = Ok (Next st (out ++ [o]))).
Proof.
  intros Hst Ht.
  destruct (data_line_spec ids line) as (o & Ho & _ & Hk & _).
  exists o. split; intros lines out.
  - rewrite body_data by assumption. rewrite Ho. reflexivity.
  - rewrite body_data;
      [|exact Hst | apply (framed_not_terminator line o Hk Ht)].
    rewrite (data_line_idem ids line o Ho). reflexivity.
Qed.

(** ** Files with a header *)

(** X9: A file whose header block is cut short by the end of the file comes
    back as it is. *)
Theorem header_at_end_of_file (ids : gset Z) (pre : list str) (d : str)
    (hs : list str) :
  Forall (fun x => ~ is_header x) pre -> is_header d ->
  (length hs <= 2)%nat ->
  process_lines ids (pre ++ d :: hs) = Ok (pre ++ d :: hs).
Proof.
  intros Hpre Hd Hlen. unfold process_lines.
  rewrite for_lines_preheader by (reflexivity || exact Hpre).
  unfold is_header in Hd. cbn [for_lines app]. unfold body at 1.
  cbn [found_dcir init_state negb]. rewrite Hd. cbn [bind].
  destruct hs as [|h1 [|h2 [|h3 hs]]]; [| | |simpl in Hlen; lia];
    cbn; rewrite <- ?app_assoc; reflexivity.
Qed.

(** X10: The header is detected once. After the header block every line that
    is no terminator, a line that starts with "DCIR" included, is
    replaced by its [data_line]; no second header block is skipped. *)
Theorem header_detected_once (ids : gset Z) (pre : list str)
    (d h1 h2 : str) (ds : list str) :
  Forall (fun x => ~ is_header x) pre -> is_header d ->
  Forall (fun l => ~ is_terminator l) ds ->
  exists ds', Forall2 (fun l o => data_line ids l = Ok o) ds ds'
    /\ process_lines ids (pre ++ d :: h1 :: h2 :: ds)
       = Ok (pre ++ [d; h1; h2] ++ ds').
Proof.
  intros Hpre Hd Hds. unfold process_lines.
  rewrite for_lines_preheader by (reflexivity || exact Hpre).
  destruct (for_lines_header ids (pre ++ d :: h1 :: h2 :: ds) ds
              init_state ([] ++ pre) d h1 h2 eq_refl Hd) as (st & Hst & ->).
  destruct (for_lines_data ids st ds Hst Hds) as (ds' & Hall & Hrun).
  exists ds'. split; [exact Hall|].
  rewrite <- (app_nil_r ds) at 2. rewrite Hrun. cbn [for_lines app].
  rewrite <- app_assoc. reflexivity.
Qed.

(** X11: The terminator ends the scan: when its line stands nowhere above, the
    lines after it come back as they are, whether they would qualify or
    not, and the data lines before it are replaced by their
    [data_line]. *)
Theorem terminator_short_circuit (ids : gset Z) (pre : list str)
    (d h1 h2 : str) (ds : list str) (t : str) (post : list str) :
  Forall (fun x => ~ is_header x) pre -> is_header d ->
  Forall (fun l => ~ is_terminator l) ds ->
  is_terminator t -> t ∉ pre -> t <> h1 -> t <> h2 ->
  exists ds', Forall2 (fun l o => data_line ids l = Ok o) ds ds'
    /\ process_lines ids (pre ++ d :: h1 :: h2 :: ds ++ t :: post)
       = Ok (pre ++ [d; h1; h2] ++ ds' ++ t :: post).
Proof.
  intros Hpre Hd Hds Ht Htpre Hth1 Hth2. unfold process_lines.
  rewrite for_lines_preheader by (reflexivity || exact Hpre).
  destruct (for_lines_header ids (pre ++ d :: h1 :: h2 :: ds ++ t :: post)
              (ds ++ t :: post) init_state ([] ++ pre) d h1 h2 eq_refl Hd)
    as (st & Hst & ->).
  destruct (for_lines_data ids st ds Hst Hds) as (ds' & Hall & Hrun).
  exists ds'. split; [exact Hall|]. rewrite Hrun.
  replace (pre ++ d :: h1 :: h2 :: ds ++ t :: post)
    with ((pre ++ d :: h1 :: h2 :: ds) ++ t :: post)
    by (rewrite <- app_assoc; reflexivity).
  rewrite terminator_first_occurrence; [|exact Hst | exact Ht |].
  - f_equal. cbn [app]. rewrite <- !app_assoc. reflexivity.
  - rewrite elem_of_app, !elem_of_cons. intros [H | [H | [H | [H | H]]]].
    + contradiction.
    + subst t. unfold is_terminator, is_header in *.
      destruct d as [|c r]; [discriminate|]. simpl in Hd, Ht.
      apply andb_prop in Hd as [Hc _]. apply andb_prop in Ht as [Hc' _].
      apply char_eqb_eq in Hc, Hc'. congruence.
    + contradiction.
    + contradiction.
    + apply (proj1 (Forall_forall _ _) Hds t H). exact Ht.
Qed.

(** ** Fields and helpers *)

Lemma new_window_unparsable (window src : str) :
  py_float (rtrim src) = Raise ValueError -> new_window window src = window.
Proof.
  intros H. unfold new_window, recomputed. rewrite H.
  destruct (is_blank window); reflexivity.
Qed.

(** X12: A window whose source field does not parse is left as it is, also in
    a line that matches; when neither source field parses the whole line
    is. *)
Theorem unparsable_field_kept (ids : gset Z) (st : state) (line : str) :
  data_state st -> ~ is_terminator line ->
  exists o,
    (forall lines out,
        body ids lines st out line = Ok (Next st (out ++ [o])))
    /\ (py_float (rtrim (slice 23 29 line)) = Raise ValueError ->
        slice 17 23 o = slice 17 23 line)
    /\ (py_float (rtrim (slice 35 41 line)) = Raise ValueError ->
        slice 29 35 o = slice 29 35 line)
    /\ (py_float (rtrim (slice 23 29 line)) = Raise ValueError ->
        py_float (rtrim (slice 35 41 line)) = Raise ValueError ->
        o = line).
Proof.
  intros Hst Ht.
  destruct (data_line_spec ids line) as (o & Ho & _ & Hk & Hc).
  exists o. split.
  { intros lines out. rewrite body_data by assumption. rewrite Ho.
    reflexivity. }
  destruct Hc as [[-> _] | (_ & Ha & Hb)]; [auto|].
  assert (py_float (rtrim (slice 23 29 line)) = Raise ValueError ->
          slice 17 23 o = slice 17 23 line) as HA
    by (intros H; rewrite Ha; apply new_window_unparsable; exact H).
  assert (py_float (rtrim (slice 35 41 line)) = Raise ValueError ->
          slice 29 35 o = slice 29 35 line) as HB
    by (intros H; rewrite Hb; apply new_window_unparsable; exact H).
  split; [exact HA|]. split; [exact HB|].
  intros Hc Hd. apply list_eq. intros k.
  destruct (decide (in_window_a k)) as [Hka|Hka];
    [apply (slice_eq_lookup 17 23); auto|].
  destruct (decide (in_window_b k)) as [Hkb|Hkb];
    [apply (slice_eq_lookup 29 35); auto|].
  apply Hk; assumption.
Qed.

Lemma length_fixed6 (neg : bool) (n : Z) : (8 <= length (fixed6 neg n))%nat.
Proof.
  unfold fixed6. destruct (dec_head (n / 10 ^ 6)) as (c & r & -> & _).
  rewrite !length_app. simpl. lia.
Qed.

(** X13: The text of a number fills its 6 characters: the loop pads with spaces
    only for an infinity or a NaN, whose texts are "inf", "-inf" and
    "nan". *)
Theorem formatted_width (value : spec_float) :
  (is_finite value = true
   /\ length (format_float_custom value) = 6%nat
   /\ ljust 6 (format_float_custom value) = format_float_custom value)
  \/ (is_finite value = false
      /\ (format_float_custom value = lit "inf"
          \/ format_float_custom value = lit "-inf"
          \/ format_float_custom value = lit "nan")).
Proof.
  assert (forall neg n,
             length (take 6 (fixed6 neg n)) = 6%nat
             /\ ljust 6 (take 6 (fixed6 neg n)) = take 6 (fixed6 neg n))
    as Hfix.
  { intros neg n. pose proof (length_fixed6 neg n) as Hlen.
    assert (length (take 6 (fixed6 neg n)) = 6%nat) as H6
      by (rewrite length_take; lia).
    split; [exact H6|]. unfold ljust. rewrite H6. simpl.
    apply app_nil_r. }
  unfold format_float_custom.
  destruct value as [neg|neg| |neg m e]; simpl format_6f.
  - left. split; [reflexivity | apply Hfix].
  - right. split; [reflexivity|]. destruct neg; auto.
  - right. split; [reflexivity|]. auto.
  - left. split; [reflexivity | apply Hfix].
Qed.

(** ** Stripping *)

Lemma lstrip_by_spec (f : ascii -> bool) (s : str) :
  exists a, s = a ++ lstrip_by f s
    /\ Forall (fun c => f c = true) a
    /\ forall c r, lstrip_by f s = c :: r -> f c = false.
Proof.
  induction s as [|x s (a & Hs & Ha & Hhead)]; simpl.
  - exists []. repeat split; [constructor | discriminate].
  - destruct (f x) eqn:Hx.
    + exists (x :: a). split; [simpl; congruence|].
      split; [constructor; assumption | exact Hhead].
    + exists []. split; [reflexivity|]. split; [constructor|].
      intros c r H. injection H as <- _. exact Hx.
Qed.

Lemma lstrip_by_all (f : ascii -> bool) (a b : str) :
  Forall (fun c => f c = true) a -> lstrip_by f (a ++ b) = lstrip_by f b.
Proof.
  induction 1 as [|x a Hx _ IH]; [reflexivity|]. simpl. rewrite Hx. exact IH.
Qed.

Lemma lstrip_by_stop (f : ascii -> bool) (a b : str) :
  lstrip_by f a <> [] -> lstrip_by f (a ++ b) = lstrip_by f a ++ b.
Proof.
  induction a as [|x a IH]; simpl; [congruence|].
  destruct (f x); [exact IH | reflexivity].
Qed.

Lemma lstrip_by_nil (f : ascii -> bool) (a : str) :
  lstrip_by f a = [] -> Forall (fun c => f c = true) a.
Proof.
  induction a as [|x a IH]; simpl; [constructor|].
  destruct (f x) eqn:Hx; [|discriminate]. intros H. constructor; auto.
Qed.

Lemma lstrip_by_Forall (P : ascii -> Prop) (f : ascii -> bool) (s : str) :
  Forall P s -> Forall P (lstrip_by f s).
Proof.
  induction 1 as [|x s Hx Hs IH]; simpl; [constructor|].
  destruct (f x); [exact IH | constructor; assumption].
Qed.

Lemma rstrip_by_Forall (P : ascii -> Prop) (f : ascii -> bool) (s : str) :
  Forall P s -> Forall P (rstrip_by f s).
Proof.
  intros H. unfold rstrip_by. apply Forall_rev, lstrip_by_Forall, Forall_rev.
  exact H.
Qed.

Lemma rstrip_by_spec (f : ascii -> bool) (s : str) :
  exists b, s = rstrip_by f s ++ b
    /\ Forall (fun c => f c = true) b
    /\ forall r c, rstrip_by f s = r ++ [c] -> f c = false.
Proof.
  unfold rstrip_by.
  destruct (lstrip_by_spec f (rev s)) as (a & Hs & Ha & Hhead).
  exists (rev a). split; [|split].
  - rewrite <- rev_app_distr, <- Hs, rev_involutive. reflexivity.
  - apply Forall_rev. exact Ha.
  - intros r c H. apply (Hhead c (rev r)).
    rewrite <- (rev_involutive (lstrip_by f (rev s))), H, rev_app_distr.
    reflexivity.
Qed.

Lemma all_spaces (b : str) :
  Forall (fun c => char_eqb " " c = true) b ->
  b = replicate (length b) " "%char.
Proof.
  induction 1 as [|x b Hx _ IH]; [reflexivity|].
  apply char_eqb_eq in Hx as <-. simpl. congruence.
Qed.

(** X14: [rtrim] removes the spaces at the end, all of them and nothing else. *)
Theorem rtrim_spec (s0 : str) :
  exists k, s0 = rtrim s0 ++ replicate k " "%char
    /\ forall r c, rtrim s0 = r ++ [c] -> c <> " "%char.
Proof.
  unfold rtrim, rstrip_space.
  destruct (rstrip_by_spec (char_eqb " ") s0) as (b & Hs & Hb & Hlast).
  exists (length b). split.
  - rewrite <- (all_spaces b Hb). exact Hs.
  - intros r c H Hc. subst c. apply Hlast in H. discriminate H.
Qed.

Lemma num_strip_spaces (r : str) (k : nat) :
  num_strip (r ++ replicate k " "%char) = num_strip r.
Proof.
  assert (Forall (fun c => is_num_space c = true) (replicate k " "%char))
    as Hsp by (apply Forall_replicate; reflexivity).
  unfold num_strip.
  destruct (lstrip_by is_num_space r) as [|c t] eqn:E.
  - apply lstrip_by_nil in E.
    rewrite <- (app_nil_r (r ++ _)), lstrip_by_all;
      [reflexivity | apply Forall_app; auto].
  - rewrite lstrip_by_stop by congruence. rewrite E.
    unfold rstrip_by. rewrite rev_app_distr.
    rewrite lstrip_by_all by (apply Forall_rev; exact Hsp). reflexivity.
Qed.

(** X15: [float] skips the spaces that [rtrim] removes: the number read from a
    field does not depend on [rtrim]. *)
Theorem float_ignores_rtrim (s0 : str) : py_float (rtrim s0) = py_float s0.
Proof.
  unfold rtrim, rstrip_space.
  destruct (rstrip_by_spec (char_eqb " ") s0) as (b & Hs & Hb & _).
  unfold py_float. rewrite Hs at 2. rewrite (all_spaces b Hb).
  rewrite num_strip_spaces. reflexivity.
Qed.

Lemma space_starts_no_number (c : ascii) :
  isspace_char c = true ->
  is_digit c = false /\ char_eqb c "-" = false /\ char_eqb c "+" = false
  /\ char_eqb c "." = false
  /\ char_eqb (lower_char c) "i" = false
  /\ char_eqb (lower_char c) "n" = false.
Proof.
  destruct c as [[] [] [] [] [] [] [] []]; vm_compute; intros H;
    try discriminate H; repeat split.
Qed.

Lemma blank_does_not_parse (src : str) :
  Forall (fun c => isspace_char c = true) src ->
  py_float src = Raise ValueError.
Proof.
  intros Hsp. unfold py_float.
  assert (Forall (fun c => isspace_char c = true) (num_strip src)) as Hu
    by (apply rstrip_by_Forall, lstrip_by_Forall; exact Hsp).
  destruct (num_strip src) as [|c u]; [reflexivity|].
  apply Forall_cons in Hu as [Hc _].
  destruct (space_starts_no_number c Hc) as (Hd & Hm & Hp & Hdot & Hi & Hn).
  unfold take_sign. rewrite Hm, Hp.
  unfold parse_decimal, opt_digits. rewrite Hd, Hdot. cbn [app].
  unfold str_eqb. cbn [map lit list_ascii_of_string startswith].
  rewrite ?Hi, ?Hn, ?andb_false_r. reflexivity.
Qed.

(** X16: A window whose source field is blank is left as it is. *)
Theorem blank_source_field_kept (ids : gset Z) (st : state) (line : str) :
  data_state st -> ~ is_terminator line ->
  exists o,
    (forall lines out,
        body ids lines st out line = Ok (Next st (out ++ [o])))
    /\ (is_blank (slice 23 29 line) = true ->
        slice 17 23 o = slice 17 23 line)
    /\ (is_blank (slice 35 41 line) = true ->
        slice 29 35 o = slice 29 35 line).
Proof.
  intros Hst Ht.
  assert (forall src, is_blank src = true ->
                      py_float (rtrim src) = Raise ValueError) as Hblank.
  { intros src Hb. apply blank_does_not_parse.
    apply rstrip_by_Forall.
    unfold is_blank, isspace in Hb. destruct src; [discriminate|].
    apply Forall_forall. intros c Hc. apply list_elem_of_In in Hc.
    apply (proj1 (forallb_forall _ _) Hb c Hc). }
  destruct (data_line_spec ids line) as (o & Ho & _ & _ & Hc).
  exists o. split.
  { intros lines out. rewrite body_data by assumption. rewrite Ho.
    reflexivity. }
  destruct Hc as [[-> _] | (_ & Ha & Hb)]; [auto|].
  split; intros H.
  - rewrite Ha. apply new_window_unparsable, Hblank, H.
  - rewrite Hb. apply new_window_unparsable, Hblank, H.
Qed.

(** ** Line breaks at the end of the file, and the download *)

Lemma not_linebreak_not_LF (c : ascii) :
  is_linebreak c = false -> char_eqb c LF = false.
Proof.
  intros H. destruct (char_eqb c LF) eqn:E; [|reflexivity].
  apply char_eqb_eq in E. subst c. discriminate H.
Qed.

Lemma splitlines_from_last_break (c : ascii) (nl : str) :
  is_linebreak c = false ->
  (forall cur, splitlines_from (c :: cur) nl = [rev (c :: cur)]) ->
  forall n s cur, (length s <= n)%nat ->
    splitlines_from cur (s ++ c :: nl) = splitlines_from cur (s ++ [c]).
Proof.
  intros Hc Hnl. induction n as [|n IH]; intros s cur Hlen.
  - destruct s; [|simpl in Hlen; lia]. cbn [app splitlines_from].
    rewrite Hc. apply Hnl.
  - destruct s as [|x s]; [cbn [app splitlines_from]; rewrite Hc; apply Hnl|].
    simpl in Hlen. cbn [app splitlines_from].
    destruct (is_linebreak x); [|apply IH; lia].
    destruct s as [|y s]; cbn [app].
    + rewrite (not_linebreak_not_LF c Hc), andb_false_r.
      f_equal. apply (IH [] []). simpl. lia.
    + destruct (char_eqb x CR && char_eqb y LF); f_equal.
      * apply IH. simpl in Hlen. lia.
      * apply (IH (y :: s) []). lia.
Qed.

(** X17: A line break at the end of the file, of one character or CR LF, makes
    no difference: the result is that of the file without it. *)
Theorem final_line_break_ignored (file_contents : str) (c b : ascii)
    (ids : gset Z) :
  is_linebreak c = false -> is_linebreak b = true ->
  process_text_file (file_contents ++ [c; b]) ids
  = process_text_file (file_contents ++ [c]) ids
  /\ process_text_file (file_contents ++ [c; CR; LF]) ids
     = process_text_file (file_contents ++ [c]) ids.
Proof.
  intros Hc Hb. unfold process_text_file, splitlines. split.
  - rewrite (splitlines_from_last_break c [b] Hc) with (n := length file_contents);
      [reflexivity | | lia].
    intros cur. cbn [splitlines_from]. rewrite Hb. reflexivity.
  - rewrite (splitlines_from_last_break c [CR; LF] Hc)
      with (n := length file_contents); [reflexivity | | lia].
    intros cur. reflexivity.
Qed.

Lemma splitlines_from_head (s : str) :
  forall cur, cur <> [] ->
    exists l ls, splitlines_from cur s = l :: ls /\ l <> [].
Proof.
  induction s as [|c s IH]; intros cur Hcur.
  - destruct cur as [|x cur]; [congruence|]. cbn [splitlines_from].
    eexists _, _. split; [reflexivity|]. simpl.
    destruct (rev cur); discriminate.
  - cbn [splitlines_from].
    assert (rev cur <> []) as Hrev.
    { destruct cur as [|x cur]; [congruence|]. simpl.
      destruct (rev cur); discriminate. }
    destruct (is_linebreak c); [|apply IH; discriminate].
    destruct s as [|d s]; [eauto|].
    destruct (char_eqb c CR && char_eqb d LF); eauto.
Qed.

Lemma splitlines_nil (s : str) : splitlines s = [] -> s = [].
Proof.
  unfold splitlines. destruct s as [|c s]; [reflexivity|].
  cbn [splitlines_from]. destruct (is_linebreak c).
  - destruct s as [|d s]; [discriminate|].
    destruct (char_eqb c CR && char_eqb d LF); discriminate.
  - destruct (splitlines_from_head s [c]) as (l & ls & -> & _);
      [discriminate | discriminate].
Qed.

Lemma splitlines_one_empty (s : str) :
  splitlines s = [[]] ->
  (exists b, is_linebreak b = true /\ s = [b]) \/ s = [CR; LF].
Proof.
  unfold splitlines. destruct s as [|c s]; [discriminate|].
  cbn [splitlines_from]. destruct (is_linebreak c) eqn:Hc.
  - destruct s as [|d s]; [left; eauto|].
    destruct (char_eqb c CR && char_eqb d LF) eqn:E; intros H;
      injection H as H.
    + pose proof (splitlines_nil s H) as ->.
      apply andb_prop in E as [E1 E2]. apply char_eqb_eq in E1, E2.
      subst. right. reflexivity.
    + pose proof (splitlines_nil (d :: s) H) as Hnil. discriminate Hnil.
  - destruct (splitlines_from_head s [c]) as (l & ls & -> & Hl);
      [discriminate|]. intros H. injection H as H _. contradiction.
Qed.

Lemma join_empty (out : list str) :
  join [LF] out = [] -> out = [] \/ out = [[]].
Proof.
  destruct out as [|a [|b r]]; simpl; [auto | intros ->; auto|].
  destruct a; discriminate.
Qed.

(** X18: No download is offered for an empty file and for a file that is one
    line break; for every other file the content is offered. *)
Theorem download_offered_iff (file_contents : str) (ids : gset Z) :
  download_offered (processed_content file_contents ids) = false
  <-> file_contents = []
      \/ (exists b, is_linebreak b = true /\ file_contents = [b])
      \/ file_contents = [CR; LF].
Proof.
  split.
  - unfold processed_content, process_text_file, process_lines.
    destruct (for_lines_spec ids (splitlines file_contents) [] init_state [])
      as (emitted & mid & n & H & Hlen & Hn & _ & Hstop & Hall).
    cbn [app] in H. rewrite H. cbn [bind download_offered].
    intros Hempty.
    assert (join [LF] (emitted ++ mid ++ drop n (splitlines file_contents))
            = []) as Hj
      by (destruct (join _ _); [reflexivity | discriminate]).
    apply join_empty in Hj.
    destruct (splitlines file_contents) as [|l ls] eqn:Hsplit;
      [left; apply splitlines_nil; exact Hsplit|].
    right. apply splitlines_one_empty. rewrite Hsplit.
    assert (exists o rest, emitted = o :: rest) as (o & rest & ->).
    { destruct emitted as [|o rest]; [|eauto]. simpl in Hlen. subst n.
      destruct Hstop as [[Hstop _] | (m & t & Hstop & _)]; simpl in Hstop;
        lia. }
    destruct Hj as [Hj | Hj]; [discriminate|].
    injection Hj as -> Hj. apply app_eq_nil in Hj as [-> Hj].
    apply app_eq_nil in Hj as [_ Hj]. simpl in Hlen. subst n.
    simpl in Hj. rewrite drop_0 in Hj. subst ls.
    destruct (Hall 0%nat l [] eq_refl eq_refl) as [(Hl & _) _].
    destruct l; [reflexivity | discriminate].
  - intros [-> | [(b & Hb & ->) | ->]].
    + reflexivity.
    + unfold processed_content, process_text_file, splitlines.
      cbn [splitlines_from]. rewrite Hb. reflexivity.
    + reflexivity.
Qed.

(** ** The flag [processing_data], and CR LF files *)

Lemma body_same_scan (ids : gset Z) (lines : list str) (st1 st2 : state)
    (out : list str) (line : str) :
  found_dcir st1 = found_dcir st2 ->
  header_lines_remaining st1 = header_lines_remaining st2 ->
  (exists e, body ids lines st1 out line = Raise e
             /\ body ids lines st2 out line = Raise e)
  \/ (exists o, body ids lines st1 out line = Ok (Break o)
                /\ body ids lines st2 out line = Ok (Break o))
  \/ (exists st1' st2' o,
        body ids lines st1 out line = Ok (Next st1' o)
        /\ body ids lines st2 out line = Ok (Next st2' o)
        /\ found_dcir st1' = found_dcir st2'
        /\ header_lines_remaining st1' = header_lines_remaining st2').
Proof.
  destruct st1 as [f1 p1 h1], st2 as [f2 p2 h2].
  cbn [found_dcir header_lines_remaining]. intros <- <-. unfold body.
  cbn [found_dcir negb header_lines_remaining processing_data].
  destruct f1; cbn [negb].
  - destruct (0 <? h1).
    + right. right. eexists _, _, _. repeat split.
    + destruct (startswith (lit "99999") line).
      * destruct (index lines line) as [i|e]; cbn [bind]; [right; left | left];
          eauto.
      * destruct (data_line ids line) as [o|e]; cbn [bind]; [right; right | left].
        -- eexists _, _, _. repeat split.
        -- eauto.
  - right. right. destruct (startswith (lit "DCIR") line);
      eexists _, _, _; repeat split.
Qed.

(** X19: The flag [processing_data] is written and never read: from two states
    that differ in it only, the loop gives the same result. *)
Theorem processing_data_unused (ids : gset Z) (lines rest : list str) :
  forall (st1 st2 : state) (out : list str),
    found_dcir st1 = found_dcir st2 ->
    header_lines_remaining st1 = header_lines_remaining st2 ->
    for_lines ids lines st1 out rest = for_lines ids lines st2 out rest.
Proof.
  induction rest as [|line rest IH]; intros st1 st2 out Hf Hh; [reflexivity|].
  cbn [for_lines].
  destruct (body_same_scan ids lines st1 st2 out line Hf Hh)
    as [(e & -> & ->) | [(o & -> & ->) | (s1 & s2 & o & -> & -> & Hf' & Hh')]];
    cbn [bind]; [reflexivity | reflexivity |].
  apply IH; assumption.
Qed.

Lemma splitlines_from_line (l : str) :
  no_line_break l ->
  forall cur rest,
    splitlines_from cur (l ++ rest) = splitlines_from (rev l ++ cur) rest.
Proof.
  induction 1 as [|c l Hc _ IH]; intros cur rest; [reflexivity|].
  cbn [app splitlines_from]. rewrite Hc, IH. simpl.
  rewrite <- app_assoc. reflexivity.
Qed.

Lemma splitlines_from_join (ls : list str) :
  Forall no_line_break ls ->
  forall cur,
    splitlines_from cur (join [CR; LF] ls) = splitlines_from cur (join [LF] ls).
Proof.
  induction 1 as [|l ls Hl Hls IH]; intros cur; [reflexivity|].
  destruct ls as [|l2 ls]; [reflexivity|].
  change (join [CR; LF] (l :: l2 :: ls))
    with (l ++ [CR; LF] ++ join [CR; LF] (l2 :: ls)).
  change (join [LF] (l :: l2 :: ls)) with (l ++ [LF] ++ join [LF] (l2 :: ls)).
  rewrite (splitlines_from_line l Hl cur ([CR; LF] ++ _)).
  rewrite (splitlines_from_line l Hl cur ([LF] ++ _)).
  cbn [app splitlines_from].
  assert (is_linebreak CR = true) as -> by reflexivity.
  assert (is_linebreak LF = true) as -> by reflexivity.
  assert (char_eqb CR CR && char_eqb LF LF = true) as -> by reflexivity.
  rewrite IH.
  destruct (join [LF] (l2 :: ls)) as [|d s]; [reflexivity|].
  assert (char_eqb LF CR = false) as -> by reflexivity.
  reflexivity.
Qed.

(** X20: A file whose lines are separated by CR LF gives the same result as
    the file with the same lines separated by LF. *)
Theorem crlf_same_as_lf (ls : list str) (ids : gset Z) :
  Forall no_line_break ls ->
  process_text_file (join [CR; LF] ls) ids
  = process_text_file (join [LF] ls) ids.
Proof.
  intros H. unfold process_text_file, splitlines.
  rewrite (splitlines_from_join ls H). reflexivity.
Qed.

(** ** The further properties on sample files *)

(** A file with one terminator line has unique terminators. *)
Lemma one_terminator_unique (a : list str) (t : str) (b : list str) :
  Forall (fun l => ~ is_terminator l) a ->
  Forall (fun l => ~ is_terminator l) b ->
  terminators_unique (a ++ t :: b).
Proof.
  intros Ha Hb.
  assert (forall j x, (a ++ t :: b) !! j = Some x -> is_terminator x ->
                      j = length a) as Hpos.
  { intros j x Hj Hx.
    destruct (decide (j < length a)%nat) as [Hlt|Hge].
    - rewrite lookup_app_l in Hj by exact Hlt.
      exfalso. apply (Forall_lookup_1 _ _ _ _ Ha Hj). exact Hx.
    - rewrite lookup_app_r in Hj by lia.
      destruct (j - length a)%nat as [|k] eqn:E; [lia|].
      simpl in Hj. exfalso. apply (Forall_lookup_1 _ _ _ _ Hb Hj). exact Hx. }
  intros j m x Hj Hm Hx.
  rewrite (Hpos j x Hj Hx), (Hpos m x Hm Hx). reflexivity.
Qed.

Ltac no_terminators := repeat constructor; not_prefix.

Ltac valid_entries :=
  repeat constructor; unfold valid_entry; intros H;
  first [eexists; by_evaluation | vm_compute in H; discriminate H].

Lemma sample_file_unique : terminators_unique sample_file.
Proof. apply one_terminator_unique; no_terminators. Qed.

Lemma bar_list_numbers_witness :
  exists numbers,
    read_bar_numbers (lit "100, 200,,300 ")
    = Ok {| bar_numbers := numbers; error_shown := false |}
    /\ forall n, n ∈ numbers <->
         exists x, x ∈ split "," (lit "100, 200,,300 ")
                   /\ py_int (strip x) = Ok n.
Proof.
  apply bar_list_numbers.
  assert (split "," (lit "100, 200,,300 ")
          = [lit "100"; lit " 200"; lit ""; lit "300 "]) as ->
    by reflexivity.
  valid_entries.
Defined.

Lemma bar_list_all_or_nothing_witness :
  read_bar_numbers (lit "100,abc,300")
  = Ok {| bar_numbers := ∅; error_shown := true |}.
Proof.
  apply bar_list_all_or_nothing.
  apply Exists_cons_tl, Exists_cons_hd. split; by_evaluation.
Defined.

Lemma line_for_line_witness :
  exists out, process_lines {[100]} sample_file = Ok out
    /\ length out = length sample_file
    /\ forall i line o, sample_file !! i = Some line -> out !! i = Some o ->
         framed {[100]} line o.
Proof. apply line_for_line, sample_file_unique. Defined.

Lemma process_lines_idempotent_witness :
  process_lines {[100]}
    ([lit "DCIR"; lit "("; lit "(";
      lit "100      7     XT10.000   500  1.25   100Z"; lit "DCIR again"]
     ++ lit "99999" :: [sample_line_blank_b; lit "FIM"])
  = Ok ([lit "DCIR"; lit "("; lit "(";
         lit "100      7     XT10.000   500  1.25   100Z"; lit "DCIR again"]
        ++ lit "99999" :: [sample_line_blank_b; lit "FIM"]).
Proof.
  apply (process_lines_idempotent {[100]} sample_file).
  - apply sample_file_unique.
  - by_evaluation.
Defined.

Lemma no_target_line_identity_witness :
  process_lines {[200]} sample_file = Ok sample_file.
Proof.
  apply no_target_line_identity; [apply sample_file_unique|].
  repeat constructor; intros (Hlen & _ & Hm);
    first [simpl in Hlen; lia | vm_compute in Hm; discriminate Hm].
Defined.

Lemma invalid_bar_list_disables_rewriting_witness :
  exists bars, read_bar_numbers (lit "100,abc") = Ok bars
    /\ error_shown bars = true
    /\ processed_content (join [LF] sample_file) (bar_numbers bars)
       = Some (join [LF] (splitlines (join [LF] sample_file))).
Proof.
  apply invalid_bar_list_disables_rewriting.
  - apply Exists_cons_tl, Exists_cons_hd. split; by_evaluation.
  - assert (splitlines (join [LF] sample_file) = sample_file) as ->
      by reflexivity.
    apply sample_file_unique.
Defined.

Lemma data_line_second_pass_witness :
  exists o,
    (forall lines out,
        body {[100]} lines after_header out sample_line
        = Ok (Next after_header (out ++ [o])))
    /\ (forall lines out,
        body {[100]} lines after_header out o
        = Ok (Next after_header (out ++ [o]))).
Proof. apply data_line_second_pass; [in_data_state | not_prefix]. Defined.

Lemma header_at_end_of_file_witness :
  process_lines {[100]} ([lit "DBAR"] ++ lit "DCIR" :: [sample_line])
  = Ok ([lit "DBAR"] ++ lit "DCIR" :: [sample_line]).
Proof.
  apply header_at_end_of_file.
  - repeat constructor; not_prefix.
  - by_evaluation.
  - simpl; lia.
Defined.

Lemma header_detected_once_witness :
  exists ds',
    Forall2 (fun l o => data_line {[100]} l = Ok o)
      [lit "DCIR"; lit "("; sample_line] ds'
    /\ process_lines {[100]}
         ([] ++ lit "DCIR" :: lit "(" :: lit "(" ::
          [lit "DCIR"; lit "("; sample_line])
       = Ok ([] ++ [lit "DCIR"; lit "("; lit "("] ++ ds').
Proof.
  apply header_detected_once.
  - constructor.
  - by_evaluation.
  - no_terminators.
Defined.

Lemma terminator_short_circuit_witness :
  exists ds',
    Forall2 (fun l o => data_line {[100]} l = Ok o) [sample_line] ds'
    /\ process_lines {[100]}
         ([lit "DBAR"] ++ lit "DCIR" :: lit "(" :: lit "(" ::
          [sample_line] ++ lit "99999" :: [sample_line_blank_b])
       = Ok ([lit "DBAR"] ++ [lit "DCIR"; lit "("; lit "("] ++
             ds' ++ lit "99999" :: [sample_line_blank_b]).
Proof.
  apply terminator_short_circuit.
  - repeat constructor; not_prefix.
  - by_evaluation.
  - no_terminators.
  - by_evaluation.
  - intros H. apply list_elem_of_singleton in H. discriminate H.
  - discriminate.
  - discriminate.
Defined.

Lemma unparsable_field_kept_witness :
  exists o,
    (forall lines out,
        body {[100]} lines after_header out sample_line_bad_c
        = Ok (Next after_header (out ++ [o])))
    /\ slice 17 23 o = lit "      ".
Proof.
  destruct (unparsable_field_kept {[100]} after_header sample_line_bad_c)
    as (o & Hb & HA & _).
  - in_data_state.
  - not_prefix.
  - exists o. split; [exact Hb|]. apply HA. by_evaluation.
Defined.

Lemma blank_source_field_kept_witness :
  exists o,
    (forall lines out,
        body {[100]} lines after_header out sample_line_blank_c
        = Ok (Next after_header (out ++ [o])))
    /\ slice 17 23 o = lit "      ".
Proof.
  destruct (blank_source_field_kept {[100]} after_header sample_line_blank_c)
    as (o & Hb & HA & _).
  - in_data_state.
  - not_prefix.
  - exists o. split; [exact Hb|]. apply HA. reflexivity.
Defined.

Lemma final_line_break_ignored_witness :
  process_text_file (lit "DCIR" ++ ["x"%char; LF]) {[100]}
  = process_text_file (lit "DCIR" ++ ["x"%char]) {[100]}
  /\ process_text_file (lit "DCIR" ++ ["x"%char; CR; LF]) {[100]}
     = process_text_file (lit "DCIR" ++ ["x"%char]) {[100]}.
Proof. apply final_line_break_ignored; reflexivity. Defined.

Lemma processing_data_unused_witness :
  for_lines {[100]} sample_file init_state [] sample_file
  = for_lines {[100]} sample_file
      {| found_dcir := false; processing_data := true;
         header_lines_remaining := 0 |} [] sample_file.
Proof. apply processing_data_unused; reflexivity. Defined.

Lemma crlf_same_as_lf_witness :
  process_text_file (join [CR; LF] sample_file) {[100]}
  = process_text_file (join [LF] sample_file) {[100]}.
Proof.
  apply crlf_same_as_lf.
  repeat constructor.
Defined.

Lemma rtrim_spec_witness :
  exists k, lit "  500  " = rtrim (lit "  500  ") ++ replicate k " "%char
    /\ forall r c, rtrim (lit "  500  ") = r ++ [c] -> c <> " "%char.
Proof. apply (rtrim_spec (lit "  500  ")). Defined.

Lemma download_offered_iff_witness :
  download_offered (processed_content [LF] {[100]}) = false.
Proof.
  apply download_offered_iff. right. left. exists LF.
  split; reflexivity.
Defined.
